(** * Verification of the DXF to LIRA converter (dxf_parser.py, lira_exporter.py)

    Shallow embedding of the Python modules.  Python strings are modelled
    as Rocq [string] (ASCII); a text stream is modelled as the list of the
    results of its successive [readline] calls, each a non-empty string
    that keeps its terminating ["\n"] (the last one may lack it); an empty
    list is an exhausted stream, where [readline] returns [""].  The module
    globals [POINTS] and [SEQUENCES] are threaded as explicit state. *)

From Stdlib Require Import String Ascii List ZArith Lia Bool DecimalString Sorted.
Import ListNotations.
Open Scope string_scope.

(* ------------------------------------------------------------------ *)
(** ** Python string helpers *)

Module Py.

Definition nl : string := String (ascii_of_nat 10) EmptyString.

(** [str.split(sep)] for a non-empty separator: every occurrence of [sep],
    scanned from the left without overlap, cuts the string.  [skip] counts
    the characters of a separator still to be dropped. *)
Fixpoint split_go (sep s : string) (skip : nat) (cur : string) : list string :=
  match s with
  | EmptyString => [cur]
  | String c r =>
      match skip with
      | S k => split_go sep r k cur
      | O =>
          if String.prefix sep s
          then cur :: split_go sep r (String.length sep - 1) EmptyString
          else split_go sep r 0 (cur ++ String c EmptyString)
      end
  end.

Definition split (s sep : string) : list string := split_go sep s 0 EmptyString.

(** [str.isspace] on one ASCII character: \t \n \v \f \r, \x1c-\x1f, space. *)
Definition is_space (c : ascii) : bool :=
  let n := nat_of_ascii c in
  ((9 <=? n) && (n <=? 13))%nat || ((28 <=? n) && (n <=? 32))%nat.

Fixpoint lstrip (s : string) : string :=
  match s with
  | EmptyString => EmptyString
  | String c r => if is_space c then lstrip r else s
  end.

Fixpoint rev_str (s : string) : string :=
  match s with
  | EmptyString => EmptyString
  | String c r => rev_str r ++ String c EmptyString
  end.

(** [str.strip()] with no argument. *)
Definition strip (s : string) : string := rev_str (lstrip (rev_str (lstrip s))).

(** [str.lower()] on ASCII. *)
Definition lower_char (c : ascii) : ascii :=
  let n := nat_of_ascii c in
  if ((65 <=? n) && (n <=? 90))%nat then ascii_of_nat (n + 32) else c.

Fixpoint lower (s : string) : string :=
  match s with
  | EmptyString => EmptyString
  | String c r => String (lower_char c) (lower r)
  end.

Definition is_digit (c : ascii) : bool :=
  let n := nat_of_ascii c in ((48 <=? n) && (n <=? 57))%nat.

(** [str.isnumeric()] on ASCII: non-empty and all digits. *)
Definition isnumeric (s : string) : bool :=
  match s with
  | EmptyString => false
  | _ => forallb is_digit (list_ascii_of_string s)
  end.

(** Decimal value of a string of digits. *)
Fixpoint digits_value_acc (acc : Z) (s : string) : Z :=
  match s with
  | EmptyString => acc
  | String c r => digits_value_acc (10 * acc + Z.of_nat (nat_of_ascii c - 48)) r
  end.

Definition digits_value (s : string) : Z := digits_value_acc 0 s.

(** [str(n)] for a Python int. *)
Definition str_int (x : Z) : string := NilEmpty.string_of_int (Z.to_int x).

(** [int(s)] on an already stripped string: optional sign, then digits;
    anything else raises [ValueError] (modelled as [None]). *)
Definition int_of_string (s : string) : option Z :=
  match s with
  | String "-" r => if isnumeric r then Some (- digits_value r)%Z else None
  | String "+" r => if isnumeric r then Some (digits_value r) else None
  | _ => if isnumeric s then Some (digits_value s) else None
  end.

End Py.

(* ------------------------------------------------------------------ *)
(** ** Data model (namedtuples of dxf_parser.py) *)

(** [Point = namedtuple("P", ("x", "y", "z", "id"))]; the coordinates are
    the raw strings read from the stream. *)
Record Point := mkPoint { x : string; y : string; z : string; id : Z }.

(** [Line = namedtuple("LINE", ("a", "b"))]. *)
Record Line := mkLine { a : Point; b : Point }.

(** [ThreeDFace = namedtuple("ThreeDFace", ("points"))]: the field list is
    the single string "points", so the tuple has one field. *)
Record ThreeDFace := mkThreeDFace { face_points : list Point }.

(** Iterating a [ThreeDFace] tuple yields its fields, i.e. one element. *)
Definition ThreeDFace_iter (f : ThreeDFace) : list (list Point) := [face_points f].

(** [LwPolyLine = namedtuple("LWPOLYLINE", ("points",))]; the points are
    a Python set, kept here as a duplicate-free list. *)
Record LwPolyLine := mkLwPolyLine { lw_points : list Point }.

(** Layer attributes: [float(digits)] (exact as long as the value is
    below 2^53), [float(digits) / 100], or a DOF token. *)
Inductive attr :=
| AFloat (v : Z)
| AFloatDiv100 (v : Z)
| AStr (s : string).

(** [Layer = namedtuple(... ("name", "id", "type", "attrs", "lines",
    "faces", "points", "lwpolines"))]. *)
Record Layer := mkLayer {
  name : string; lid : Z; type : string; attrs : list attr;
  lines : list Line; faces : list ThreeDFace; points : list Point;
  lwpolines : list LwPolyLine }.

(** Key of [POINTS]: the triple of truncated coordinate strings. *)
Definition key := (string * string * string)%type.

Definition key_eqb (k1 k2 : key) : bool :=
  match k1, k2 with
  | (a1, b1, c1), (a2, b2, c2) =>
      String.eqb a1 a2 && String.eqb b1 b2 && String.eqb c1 c2
  end.

(** Module state: [POINTS] (an OrderedDict, as an association list in
    insertion order), [SEQUENCES["points"]] and [SEQUENCES["layers"]]
    ([None] until the generator has been started by its first [next]),
    and the input stream. *)
Record St := mkSt {
  stream : list string;
  POINTS : list (key * Point);
  seq_points : option Z;
  seq_layers : option Z }.

(* ------------------------------------------------------------------ *)
(** ** Exceptions and the state-and-error monad *)

Inductive exc := TypeError | ValueError | AttributeError.

Inductive result (A : Type) := Ok (v : A) | Err (e : exc).
Arguments Ok {A} v.
Arguments Err {A} e.

Definition M (A : Type) := St -> result (A * St).

Definition ret {A} (v : A) : M A := fun s => Ok (v, s).
Definition raise {A} (e : exc) : M A := fun _ => Err e.
Definition bind {A B} (m : M A) (k : A -> M B) : M B :=
  fun s => match m s with Ok (v, s') => k v s' | Err e => Err e end.
Definition get : M St := fun s => Ok (s, s).
Definition put (s : St) : M unit := fun _ => Ok (tt, s).

Notation "x <- m ;; k" := (bind m (fun x => k)) (at level 61, m at next level, right associativity).
Notation "m ;;; k" := (bind m (fun _ => k)) (at level 61, right associativity).

(* ------------------------------------------------------------------ *)
(** ** [_counter]: the id generators *)

(** [next(POINT_ID_SEQUENCE)]: the first call stores and yields [start = 1];
    later calls add [step = 1] to the value currently in [SEQUENCES]. *)
Definition next_point_id : M Z :=
  fun s =>
    let v := match seq_points s with None => 1%Z | Some n => (n + 1)%Z end in
    Ok (v, mkSt (stream s) (POINTS s) (Some v) (seq_layers s)).

Definition next_layer_id : M Z :=
  fun s =>
    let v := match seq_layers s with None => 1%Z | Some n => (n + 1)%Z end in
    Ok (v, mkSt (stream s) (POINTS s) (seq_points s) (Some v)).

(* ------------------------------------------------------------------ *)
(** ** [strip_tollerence] and [point_factory] *)

Definition FLOAT_TOLLERENCE : nat := 3.

Definition strip_tollerence (num : string) : string :=
  match Py.split num "." with
  | [f0; f1] => f0 ++ "." ++ substring 0 FLOAT_TOLLERENCE f1
  | _ => num
  end.

Fixpoint lookup_key (k : key) (d : list (key * Point)) : option Point :=
  match d with
  | [] => None
  | (k', p) :: r => if key_eqb k k' then Some p else lookup_key k r
  end.

Definition point_factory (x y z : string) : M Point :=
  fun s =>
    let hash_ := (strip_tollerence x, strip_tollerence y, strip_tollerence z) in
    match lookup_key hash_ (POINTS s) with
    | Some p => Ok (p, s)
    | None =>
        match next_point_id s with
        | Ok (n, s1) =>
            let p := mkPoint x y z n in
            Ok (p, mkSt (stream s1) (POINTS s1 ++ [(hash_, p)]) (seq_points s1) (seq_layers s1))
        | Err e => Err e
        end
    end.

(** The state at import: [POINTS] and [SEQUENCES] empty, and the stream. *)
Definition initial_state (l : list string) : St := mkSt l [] None None.

(* ------------------------------------------------------------------ *)
(** ** Reading the tag stream *)

Definition set_stream (s : St) (l : list string) : St :=
  mkSt l (POINTS s) (seq_points s) (seq_layers s).

(** [f.readline()]: [""] once the stream is exhausted. *)
Definition readline : M string :=
  fun s => match stream s with
           | [] => Ok ("", s)
           | l :: r => Ok (l, set_stream s r)
           end.

(** The loop of [read_code_value] over the remaining lines; [target] is
    [code + "\n"]. *)
Fixpoint read_code_value_go (target : string) (l : list string) : string * list string :=
  match l with
  | [] => ("ENDOFFILE", [])
  | line :: r =>
      if String.eqb line target
      then match r with
           | [] => (Py.strip "", [])
           | v :: r' => (Py.strip v, r')
           end
      else read_code_value_go target r
  end.

(** [read_code_value(f, code)] with the default [parser = str]. *)
Definition read_code_value (code : string) : M string :=
  fun s => let (v, r) := read_code_value_go (code ++ Py.nl) (stream s) in
           Ok (v, set_stream s r).

(** [read_codes(f, codes)]: a generator, consumed in order by the caller. *)
Fixpoint read_codes (codes : list string) : M (list string) :=
  match codes with
  | [] => ret []
  | c :: cs => v <- read_code_value c;; vs <- read_codes cs;; ret (v :: vs)
  end.

(** [point_factory( *read_codes(f, (cx, cy, cz)))]. *)
Definition read_point (cx cy cz : string) : M Point :=
  vs <- read_codes [cx; cy; cz];;
  match vs with
  | [vx; vy; vz] => point_factory vx vy vz
  | _ => raise TypeError
  end.

(* ------------------------------------------------------------------ *)
(** ** Entity parsers *)

Definition parse_LINE : M Line :=
  pa <- read_point " 10" " 20" " 30";;
  pb <- read_point " 11" " 21" " 31";;
  ret (mkLine pa pb).

Definition parse_POINT : M Point := read_point " 10" " 20" " 30".

(** The loop of [unique_points]: [acc] is [_points], [ids] the set [ids]. *)
Fixpoint unique_points_go (pts acc : list Point) (ids : list Z) : list Point :=
  match pts with
  | [] => acc
  | p :: r =>
      if existsb (Z.eqb (id p)) ids
      then unique_points_go r acc ids
      else unique_points_go r (acc ++ [p]) (id p :: ids)
  end.

Definition unique_points (pts : list Point) : list Point := unique_points_go pts [] [].

Definition parse_3DFACE : M ThreeDFace :=
  pa <- read_point " 10" " 20" " 30";;
  pb <- read_point " 11" " 21" " 31";;
  pc <- read_point " 12" " 22" " 32";;
  pd <- read_point " 13" " 23" " 33";;
  ret (mkThreeDFace (unique_points [pa; pb; pd; pc])).

(** [Point(p)] with the single positional argument [p]: the namedtuple [P]
    has the required fields x, y, z (only [id] has a default), so the call
    raises [TypeError]. *)
Definition Point_of_one_arg (p : Point) : M Point := raise TypeError.

Definition point_eqb (p q : Point) : bool :=
  String.eqb (x p) (x q) && String.eqb (y p) (y q) && String.eqb (z p) (z q)
  && Z.eqb (id p) (id q).

(** [set.add]. *)
Definition set_add (p : Point) (ps : list Point) : list Point :=
  if existsb (point_eqb p) ps then ps else ps ++ [p].

(** The vertex loop of [parse_LWPOLYLINE]. *)
Fixpoint parse_LWPOLYLINE_loop (k : nat) (pts : list Point) : M (list Point) :=
  match k with
  | O => ret pts
  | S k' =>
      line <- readline;;
      if String.eqb line "" then ret pts
      else if String.eqb line "  0" then ret pts
      else
        let vx := Py.strip line in
        vy <- read_code_value " 20";;
        let vz := "0.00" in
        p <- point_factory vx vy vz;;
        q <- Point_of_one_arg p;;
        parse_LWPOLYLINE_loop k' (set_add q pts)
  end.

Definition parse_LWPOLYLINE : M LwPolyLine :=
  n_verticies <- read_code_value " 90";;
  match Py.int_of_string n_verticies with
  | None => raise ValueError
  | Some n => pts <- parse_LWPOLYLINE_loop (Z.to_nat n) [];; ret (mkLwPolyLine pts)
  end.

Inductive entity :=
| EPoint (p : Point)
| ELine (l : Line)
| EFace (f : ThreeDFace)
| EPoly (l : LwPolyLine).

(** [ENTITY_PARSERS.get(entity_type)]. *)
Definition ENTITY_PARSERS (t : string) : option (M entity) :=
  if String.eqb t "POINT" then Some (p <- parse_POINT;; ret (EPoint p))
  else if String.eqb t "LINE" then Some (l <- parse_LINE;; ret (ELine l))
  else if String.eqb t "3DFACE" then Some (f <- parse_3DFACE;; ret (EFace f))
  else if String.eqb t "LWPOLYLINE" then Some (l <- parse_LWPOLYLINE;; ret (EPoly l))
  else None.

(* ------------------------------------------------------------------ *)
(** ** The layer dictionary and [remove_invalid_layer] *)

(** A [dict[str, Layer]] in insertion order. *)
Definition layer_dict := list (string * Layer).

Fixpoint dict_get (k : string) (d : layer_dict) : option Layer :=
  match d with
  | [] => None
  | (k', v) :: r => if String.eqb k k' then Some v else dict_get k r
  end.

(** [d.pop(k, None)]. *)
Fixpoint dict_pop (k : string) (d : layer_dict) : option Layer * layer_dict :=
  match d with
  | [] => (None, [])
  | (k', v) :: r =>
      if String.eqb k k' then (Some v, r)
      else let (o, r') := dict_pop k r in (o, (k', v) :: r')
  end.

(** [d[k] = v]: replaces the value in place, or appends a new key. *)
Fixpoint dict_set (k : string) (v : Layer) (d : layer_dict) : layer_dict :=
  match d with
  | [] => [(k, v)]
  | (k', v') :: r => if String.eqb k k' then (k', v) :: r else (k', v') :: dict_set k v r
  end.

Definition dict_values (d : layer_dict) : list Layer := map snd d.

Definition set_seq_points (s : St) (v : option Z) : St :=
  mkSt (stream s) (POINTS s) v (seq_layers s).

(** [remove_invalid_layer].  [if not layer]: a [Layer] tuple has eight
    fields, so an existing layer is always truthy.  [if not
    SEQUENCES.get('points')]: true when the key is absent or holds 0. *)
Definition remove_invalid_layer (layer_name : string) (layers : layer_dict) : M layer_dict :=
  fun s =>
    let (o, layers') := dict_pop layer_name layers in
    match o with
    | None => Ok (layers', s)
    | Some layer =>
        match seq_points s with
        | None => Ok (layers', s)
        | Some 0%Z => Ok (layers', s)
        | Some n =>
            let n1 := (n - Z.of_nat (length (lines layer)) * 2)%Z in
            let n2 := (n1 - Z.of_nat (length (points layer)))%Z in
            let n3 := (n2 - Z.of_nat (length (concat (map ThreeDFace_iter (faces layer)))))%Z in
            Ok (layers', set_seq_points s (Some n3))
        end
    end.

(* ------------------------------------------------------------------ *)
(** ** [parse_layer_name] *)

(** [re.findall(c + r"\d+", s)]: the non-overlapping matches, left to
    right, each [c] followed by a maximal run of digits.  [acc] is [Some ds]
    while a match attempt has read [c] and then the digits [ds]. *)
Fixpoint findall_go (c : ascii) (s : string) (acc : option string) : list string :=
  match s with
  | EmptyString =>
      match acc with
      | Some (String d ds) => [String c (String d ds)]
      | _ => []
      end
  | String ch r =>
      match acc with
      | Some ds =>
          if Py.is_digit ch then findall_go c r (Some (ds ++ String ch EmptyString))
          else (match ds with EmptyString => [] | _ => [String c ds] end)
                 ++ findall_go c r (if Ascii.eqb ch c then Some EmptyString else None)
      | None => findall_go c r (if Ascii.eqb ch c then Some EmptyString else None)
      end
  end.

Definition findall (c : ascii) (s : string) : list string := findall_go c s None.

Definition DOF_VALUES : list string := ["x"; "y"; "z"; "fx"; "fy"; "fz"].

(** [DOF_MAP]; only applied to members of [DOF_VALUES]. *)
Definition DOF_MAP (d : string) : Z :=
  if String.eqb d "x" then 1 else if String.eqb d "y" then 2
  else if String.eqb d "z" then 3 else if String.eqb d "fx" then 4
  else if String.eqb d "fy" then 5 else if String.eqb d "fz" then 6 else 0.

Definition mem (s : string) (l : list string) : bool := existsb (String.eqb s) l.

(** [all(l[i] <= l[i + 1] for i in range(len(l) - 1))] on strings. *)
Fixpoint sorted_le (l : list string) : bool :=
  match l with
  | s1 :: ((s2 :: _) as r) => String.leb s1 s2 && sorted_le r
  | _ => true
  end.

(** Python's result: [None] (no branch taken) or a list. *)
Definition parse_layer_name (entity_type layer_name : string) : option (list attr) :=
  if String.eqb entity_type "LINE" then
    let b_val := findall "B" layer_name in
    let h_val := findall "H" layer_name in
    match b_val, h_val with
    | bv :: _, hv :: _ =>
        Some [AFloat (Py.digits_value (substring 1 (String.length bv) bv));
              AFloat (Py.digits_value (substring 1 (String.length hv) hv))]
    | _, _ => Some []
    end
  else if String.eqb entity_type "3DFACE" then
    let h_val := findall "H" layer_name in
    match h_val with
    | hv :: _ => Some [AFloatDiv100 (Py.digits_value (substring 1 (String.length hv) hv))]
    | [] => Some []
    end
  else if String.eqb entity_type "POINT" then
    let splits := Py.split layer_name "DOF " in
    if (length splits <? 2)%nat then Some []
    else
      let dofs := Py.lower (nth 1 splits EmptyString) in
      let dofs := map Py.strip (filter (fun dof => mem (Py.strip dof) DOF_VALUES)
                                       (Py.split dofs " ")) in
      let lira_dofs := map (fun d => Py.str_int (DOF_MAP d)) dofs in
      if negb (sorted_le lira_dofs) then Some []
      else Some (map AStr dofs)
  else None.

(** [not attrs]. *)
Definition attrs_falsy (r : option (list attr)) : bool :=
  match r with None | Some [] => true | _ => false end.

(* ------------------------------------------------------------------ *)
(** ** [parse_entities] *)

(** [ENTITY_MAPS]. *)
Definition ENTITY_MAPS (t : string) : string :=
  if String.eqb t "POINT" then "points"
  else if String.eqb t "LINE" then "lines"
  else if String.eqb t "3DFACE" then "faces"
  else if String.eqb t "LWPOLYLINE" then "lwpolylines"
  else "".

(** [getattr(layer, field).append(e)]; [None] is the [AttributeError] of a
    field name that [Layer] does not have (its polyline field is
    spelled "lwpolines"). *)
Definition layer_append (field : string) (e : entity) (l : Layer) : option Layer :=
  match e with
  | EPoint p => if String.eqb field "points" then
      Some (mkLayer (name l) (lid l) (type l) (attrs l) (lines l) (faces l) (points l ++ [p]) (lwpolines l))
      else None
  | ELine ln => if String.eqb field "lines" then
      Some (mkLayer (name l) (lid l) (type l) (attrs l) (lines l ++ [ln]) (faces l) (points l) (lwpolines l))
      else None
  | EFace f => if String.eqb field "faces" then
      Some (mkLayer (name l) (lid l) (type l) (attrs l) (lines l) (faces l ++ [f]) (points l) (lwpolines l))
      else None
  | EPoly pl => if String.eqb field "lwpolines" then
      Some (mkLayer (name l) (lid l) (type l) (attrs l) (lines l) (faces l) (points l) (lwpolines l ++ [pl]))
      else None
  end.

Inductive ctl := Continue | Break.

(** [entity = entity_parser(f)] and the append to the layer's field. *)
Definition parse_and_append (parser : M entity) (entity_type layer_name : string)
    (layer : Layer) (layers : layer_dict) : M (ctl * layer_dict) :=
  e <- parser;;
  match layer_append (ENTITY_MAPS entity_type) e layer with
  | None => raise AttributeError
  | Some layer' => ret (Continue, dict_set layer_name layer' layers)
  end.

(** One iteration of the [while True] loop of [parse_entities]. *)
Definition parse_entities_step (layers : layer_dict) : M (ctl * layer_dict) :=
  entity_type <- read_code_value "  0";;
  if String.eqb entity_type "ENDSEC" || String.eqb entity_type "ENDOFFILE"
  then ret (Break, layers)
  else if Py.isnumeric entity_type then ret (Continue, layers)
  else
    match ENTITY_PARSERS entity_type with
    | None => ret (Continue, layers)
    | Some entity_parser =>
        layer_name <- read_code_value "  8";;
        match dict_get layer_name layers with
        | Some layer =>
            if negb (String.eqb (type layer) entity_type) then
              layers' <- remove_invalid_layer layer_name layers;;
              ret (Continue, layers')
            else parse_and_append entity_parser entity_type layer_name layer layers
        | None =>
            let attrs := parse_layer_name entity_type layer_name in
            if attrs_falsy attrs then ret (Continue, layers)
            else
              layer_id <- next_layer_id;;
              let layer := mkLayer layer_name layer_id entity_type
                             (match attrs with Some l => l | None => [] end) [] [] [] [] in
              parse_and_append entity_parser entity_type layer_name layer
                               (dict_set layer_name layer layers)
        end
    end.

(** The loop itself, bounded by [fuel]; every [Continue] consumes at least
    the entity-type line, so [length (stream s) + 1] rounds suffice. *)
Fixpoint parse_entities_loop (fuel : nat) (layers : layer_dict) : M layer_dict :=
  match fuel with
  | O => ret layers
  | S fuel' =>
      r <- parse_entities_step layers;;
      match r with
      | (Break, layers') => ret layers'
      | (Continue, layers') => parse_entities_loop fuel' layers'
      end
  end.

Definition parse_entities : M (list Layer) :=
  fun s => (layers <- parse_entities_loop (S (length (stream s))) [];;
            ret (dict_values layers)) s.

(* ------------------------------------------------------------------ *)
(** ** lira_exporter.py: header and section 1 of [_write_to_lira_file] *)

Module Exporter.

Definition nl := Py.nl.

Definition header : list string :=
  ["(0/1;csv2lira/2;5/39; 1:'dead load';)(1/" ++ nl; nl].

(** [for line in layer.lines: lines.append(f'5 {layer.id} {line.a.id} {line.b.id}/\n')]. *)
Fixpoint lines_loop (layer_id : Z) (ls : list Line) (acc : list string) : list string :=
  match ls with
  | [] => acc
  | l :: r =>
      lines_loop layer_id r
        (acc ++ ["5 " ++ Py.str_int layer_id ++ " " ++ Py.str_int (id (a l)) ++ " "
                 ++ Py.str_int (id (b l)) ++ "/" ++ nl])
  end.

(** The face loop, with its [continue] after a triangle. *)
Fixpoint faces_loop (layer_id : Z) (fs : list ThreeDFace) (acc : list string) : list string :=
  match fs with
  | [] => acc
  | f :: r =>
      let p_ids := String.concat " " (map (fun p => Py.str_int (id p)) (face_points f)) in
      if (length (face_points f) =? 3)%nat
      then faces_loop layer_id r (acc ++ ["42 " ++ Py.str_int layer_id ++ " " ++ p_ids ++ "/" ++ nl])
      else faces_loop layer_id r (acc ++ ["44 " ++ Py.str_int layer_id ++ " " ++ p_ids ++ "/" ++ nl])
  end.

(** The [# ENTITIES] loop over the layers; [out] is what has been written. *)
Fixpoint entities_loop (layers : list Layer) (out : list string) : list string :=
  match layers with
  | [] => out
  | layer :: r =>
      let ls := lines_loop (lid layer) (lines layer) [] in
      let ls := faces_loop (lid layer) (faces layer) ls in
      entities_loop r (out ++ ls)
  end.

(** Everything [_write_to_lira_file] writes before [")(3/"]: the header
    and section 1. *)
Definition write_through_section1 (layers : list Layer) : list string :=
  entities_loop layers header.

(** Section 1 as the spec words it: per layer, a record [5 <layer id>
    <a id> <b id>] per Line, then per Face [42] for three stored points
    and [44] otherwise, with its point ids in stored order. *)
Definition spec_record (tag : string) (fields : list Z) : string :=
  tag ++ " " ++ String.concat " " (map Py.str_int fields) ++ "/" ++ nl.

Definition spec_layer_records (layer : Layer) : list string :=
  map (fun l => spec_record "5" [lid layer; id (a l); id (b l)]) (lines layer)
  ++ map (fun f => spec_record (if (length (face_points f) =? 3)%nat then "42" else "44")
                               (lid layer :: map id (face_points f))) (faces layer).

Definition spec_section1 (layers : list Layer) : list string :=
  concat (map spec_layer_records layers).

(** The rest of [_write_to_lira_file].  Python's [str] of a float
    attribute ([float(digits)] or [float(digits) / 100]) is left as a
    parameter: the statements below hold for every such formatting. *)
Section Write.

Variable float_str : Z -> string.
Variable float_div100_str : Z -> string.

(** [str(at)] for an attribute. *)
Definition str_attr (at' : attr) : string :=
  match at' with
  | AFloat v => float_str v
  | AFloatDiv100 v => float_div100_str v
  | AStr s => s
  end.

(** [# LAYERS]: layers with points are skipped; a layer with one
    attribute gets the 3DFACE record, the others the LINE record. *)
Fixpoint layers_loop (layers : list Layer) (acc : list string) : list string :=
  match layers with
  | [] => acc
  | layer :: r =>
      if (0 <? length (points layer))%nat then layers_loop r acc
      else
        let at' := String.concat " " (map str_attr (attrs layer)) in
        let line := if (length (attrs layer) =? 1)%nat
                    then Py.str_int (lid layer) ++ " 3.06E6 0.2 " ++ at' ++ "/" ++ nl
                    else Py.str_int (lid layer) ++ " S0 3.06E6 " ++ at' ++ "/" ++ nl in
        layers_loop r (acc ++ [line])
  end.

(** [# POINTS]: [for point in points: f.writelines([f'{point.x} {point.y} {point.z}/\n'])]. *)
Fixpoint points_loop (pts : list Point) (out : list string) : list string :=
  match pts with
  | [] => out
  | p :: r => points_loop r (out ++ [x p ++ " " ++ y p ++ " " ++ z p ++ "/" ++ nl])
  end.

(** [DOF_MAP[d]] of lira_exporter.py: its keys are strings, so any other
    attribute (or an unknown token) is a [KeyError], modelled as [None]. *)
Definition DOF_MAP_get (d : attr) : option Z :=
  match d with
  | AStr s =>
      if String.eqb s "x" then Some 1%Z else if String.eqb s "y" then Some 2%Z
      else if String.eqb s "z" then Some 3%Z else if String.eqb s "fx" then Some 4%Z
      else if String.eqb s "fy" then Some 5%Z else if String.eqb s "fz" then Some 6%Z
      else None
  | _ => None
  end.

(** [' '.join([str(DOF_MAP[d]) for d in layer.attrs])]. *)
Fixpoint dofs_codes (ats : list attr) : option (list string) :=
  match ats with
  | [] => Some []
  | d :: r =>
      match DOF_MAP_get d with
      | None => None
      | Some c => match dofs_codes r with None => None | Some cs => Some (Py.str_int c :: cs) end
      end
  end.

Definition dofs_str (ats : list attr) : option string :=
  match dofs_codes ats with None => None | Some cs => Some (String.concat " " cs) end.

(** The inner loop over [layer.points]; the join is evaluated per point. *)
Fixpoint dof_lines (ats : list attr) (pts : list Point) (acc : list string) : option (list string) :=
  match pts with
  | [] => Some acc
  | p :: r =>
      match dofs_str ats with
      | None => None
      | Some dofs => dof_lines ats r (acc ++ [Py.str_int (id p) ++ " " ++ dofs ++ "/" ++ nl])
      end
  end.

(** [# DOFS]: layers without points are skipped. *)
Fixpoint dofs_loop (layers : list Layer) (out : list string) : option (list string) :=
  match layers with
  | [] => Some out
  | layer :: r =>
      if negb (0 <? length (points layer))%nat then dofs_loop r out
      else match dof_lines (attrs layer) (points layer) [] with
           | None => None
           | Some ls => dofs_loop r (out ++ ls)
           end
  end.

Definition trailer : list string :=
  [nl; nl ++ ")(6/1 16 3 1 1/)"; nl ++ "(7/1 0.0 0.0 0.0 0.0 /)";
   nl ++ "(8/0 0 0 0 0 0 0/)"; nl].

(** [_write_to_lira_file(f, layers, points)]: the strings written, in
    order; [None] is the [KeyError] of the DOF section. *)
Definition write_to_lira_file (layers : list Layer) (pts : list Point) : option (list string) :=
  let out := entities_loop layers header in
  let out := (out ++ [nl; String.append ")(3/" nl])%list in
  let out := (out ++ layers_loop layers [])%list in
  let out := (out ++ [nl; String.append ")(4/" nl])%list in
  let out := points_loop pts out in
  let out := (out ++ [nl; String.append ")(5/" nl])%list in
  match dofs_loop layers out with
  | None => None
  | Some out => Some (out ++ trailer)%list
  end.

(** [export_to_lira_csv(layers, points, filename)]: the file written and
    its contents. *)
Definition export_to_lira_csv (layers : list Layer) (pts : list Point) (filename : string)
  : string * option (list string) :=
  (filename ++ "__lira.txt", write_to_lira_file layers pts).

End Write.

End Exporter.

(* ------------------------------------------------------------------ *)
(** ** [parse_dxf] *)

(** The section loop of [parse_dxf]: each [ENTITIES] section replaces the
    layers.  Every round reads at least one line or stops at the end of
    the stream, so [length (stream s) + 1] rounds suffice. *)
Fixpoint parse_dxf_loop (fuel : nat) (layers : list Layer) : M (list Layer) :=
  match fuel with
  | O => ret layers
  | S fuel' =>
      section <- read_code_value "  2";;
      if String.eqb section "ENDOFFILE" then ret layers
      else if String.eqb section "ENTITIES" then
        layers' <- parse_entities;; parse_dxf_loop fuel' layers'
      else parse_dxf_loop fuel' layers
  end.

Section Dxf.

Variable float_str : Z -> string.
Variable float_div100_str : Z -> string.

(** [parse_dxf(filename)], the stream being the file's contents: the
    layers returned, with the name and contents of the LIRA file that
    [export_to_lira_csv(layers, POINTS.values(), result_fname)] writes.
    [result_fname, _ = filename.split(".")] raises [ValueError] unless the
    split gives exactly two parts. *)
Definition parse_dxf (filename : string) : M (list Layer * (string * option (list string))) :=
  match Py.split filename "." with
  | [result_fname; _] =>
      fun s =>
        (layers <- parse_dxf_loop (S (length (stream s))) [];;
         st <- get;;
         ret (layers, Exporter.export_to_lira_csv float_str float_div100_str
                        layers (map snd (POINTS st)) result_fname)) s
  | _ => raise ValueError
  end.

End Dxf.

(* ------------------------------------------------------------------ *)
(** ** Sample data *)

Module Samples.

Definition nl := Py.nl.

Definition p1 : Point := mkPoint "0.0" "0.0" "0.0" 1.
Definition p2 : Point := mkPoint "1.0" "0.0" "0.0" 2.
Definition p3 : Point := mkPoint "1.0" "1.0" "0.0" 3.
Definition p4 : Point := mkPoint "0.0" "1.0" "0.0" 4.

Definition line_layer : Layer :=
  mkLayer "Beam B30 H50" 1 "LINE" [AFloat 30; AFloat 50] [mkLine p1 p2] [] [] [].

Definition face_layer : Layer :=
  mkLayer "Slab H20" 2 "3DFACE" [AFloatDiv100 20] [] [mkThreeDFace [p1; p2; p4; p3]] [] [].


(** A stream of [readline] results built from line contents. *)
Definition lines_of (l : list string) : list string := map (fun s => s ++ nl) l.

(** An entity: its type marker, its layer, then its group codes. *)
Definition entity_lines (t layer : string) (codes : list string) : list string :=
  ["  0"; t; "  8"; layer] ++ codes.

Definition line_codes : list string :=
  [" 10"; "1.0"; " 20"; "0.0"; " 30"; "0.0"; " 11"; "2.0"; " 21"; "0.0"; " 31"; "0.0"].

Definition point_codes : list string := [" 10"; "5.0"; " 20"; "0.0"; " 30"; "0.0"].

Definition face_codes : list string :=
  [" 10"; "0.0"; " 20"; "0.0"; " 30"; "0.0"; " 11"; "1.0"; " 21"; "0.0"; " 31"; "0.0";
   " 12"; "1.0"; " 22"; "1.0"; " 32"; "0.0"; " 13"; "0.0"; " 23"; "1.0"; " 33"; "0.0"].

Definition endsec : list string := ["  0"; "ENDSEC"].

(** Face corners a, b, c, d with c = a, and with a = b = c. *)
Definition face_codes_c_is_a : list string :=
  [" 10"; "0.0"; " 20"; "0.0"; " 30"; "0.0"; " 11"; "1.0"; " 21"; "0.0"; " 31"; "0.0";
   " 12"; "0.0"; " 22"; "0.0"; " 32"; "0.0"; " 13"; "0.0"; " 23"; "1.0"; " 33"; "0.0"].

Definition face_codes_three_equal : list string :=
  [" 10"; "0.0"; " 20"; "0.0"; " 30"; "0.0"; " 11"; "0.0"; " 21"; "0.0"; " 31"; "0.0";
   " 12"; "0.0"; " 22"; "0.0"; " 32"; "0.0"; " 13"; "0.0"; " 23"; "1.0"; " 33"; "0.0"].



(** A LINE layer given twice, a 3DFACE layer and a POINT layer, then the
    end of the section and of the file. *)
Definition mixed : list string :=
  lines_of (entity_lines "LINE" "Beam B30 H50" line_codes
     ++ entity_lines "3DFACE" "Slab H20" face_codes
     ++ entity_lines "POINT" "Sup DOF x z" point_codes
     ++ entity_lines "LINE" "Beam B30 H50" line_codes
     ++ endsec ++ ["  2"; "ENDOFFILE"]).

Definition point_layer : Layer :=
  mkLayer "Sup DOF x z" 3 "POINT" [AStr "x"; AStr "z"] [] [] [p3] [].

End Samples.

(* ------------------------------------------------------------------ *)
(** ** Predicates used by the statements *)

(** [c] does not occur in [s]. *)
Definition no_char (c : ascii) (s : string) : bool :=
  forallb (fun d => negb (Ascii.eqb d c)) (list_ascii_of_string s).

(** [pat] occurs in [s] as a substring. *)
Fixpoint occurs (pat s : string) : bool :=
  match s with
  | EmptyString => String.prefix pat EmptyString
  | String _ r => String.prefix pat s || occurs pat r
  end.

(** Spec side of the face order: the corners kept are those with no
    earlier corner of the same id, in their order. *)
Definition first_occurrences (l : list Point) : list Point :=
  map fst (filter (fun pi => negb (existsb (fun q => Z.eqb (id q) (id (fst pi)))
                                           (firstn (snd pi) l)))
                  (combine l (seq 0 (length l)))).

(** Spec side of the DOF order check: the numeric codes never decrease. *)
Fixpoint sorted_codes (l : list Z) : bool :=
  match l with
  | c1 :: ((c2 :: _) as r) => Z.leb c1 c2 && sorted_codes r
  | _ => true
  end.

(** The tokens after the marker that [parse_layer_name] keeps. *)
Definition kept_dofs (t : string) : list string :=
  map Py.strip (filter (fun dof => mem (Py.strip dof) DOF_VALUES) (Py.split (Py.lower t) " ")).

(** Spec side of the LINE rule: [s] contains the letter [c] immediately
    followed by a digit, i.e. a substring matching [c<digits>]. *)
Definition starts_digit (s : string) : bool :=
  match s with String d _ => Py.is_digit d | EmptyString => false end.

Fixpoint has_letter_digit (c : ascii) (s : string) : bool :=
  match s with
  | EmptyString => false
  | String ch r => (Ascii.eqb ch c && starts_digit r) || has_letter_digit c r
  end.

(** The number after the letter in the first [c<digits>] match. *)
Definition first_match_value (c : ascii) (s : string) : Z :=
  match findall c s with
  | m :: _ => Py.digits_value (substring 1 (String.length m) m)
  | [] => 0
  end.

(** Some run of [POINTS]-sharing [point_factory] calls. *)
Fixpoint point_factory_many (ts : list (string * string * string)) : M (list Point) :=
  match ts with
  | [] => ret []
  | (vx, vy, vz) :: r => p <- point_factory vx vy vz;; ps <- point_factory_many r;; ret (p :: ps)
  end.


(** A layer holds entities of its own kind only, and at least one. *)
Definition holds_own_kind (L : Layer) : Prop :=
  (type L = "LINE" /\ lines L <> [] /\ faces L = [] /\ points L = [] /\ lwpolines L = [])
  \/ (type L = "3DFACE" /\ lines L = [] /\ faces L <> [] /\ points L = [] /\ lwpolines L = [])
  \/ (type L = "POINT" /\ lines L = [] /\ faces L = [] /\ points L <> [] /\ lwpolines L = []).

(** The attributes a layer of each kind carries. *)
Definition attrs_shape (L : Layer) : Prop :=
  (type L = "LINE" -> exists bv hv, attrs L = [AFloat bv; AFloat hv])
  /\ (type L = "3DFACE" -> exists hv, attrs L = [AFloatDiv100 hv])
  /\ (type L = "POINT" -> attrs L <> []
        /\ Forall (fun d => exists t, d = AStr t /\ mem t DOF_VALUES = true) (attrs L)).

Definition layer_ok (L : Layer) : Prop := holds_own_kind L /\ attrs_shape L.

(** The layer dictionary: keys distinct, each the name of its layer, every
    layer well formed. *)
Definition dict_ok (d : layer_dict) : Prop :=
  NoDup (map fst d) /\ Forall (fun kv => name (snd kv) = fst kv /\ layer_ok (snd kv)) d.

(** Layer ids increase along the dictionary and none exceeds the layer
    counter. *)
Definition ids_ok (d : layer_dict) (c : option Z) : Prop :=
  StronglySorted Z.lt (map (fun kv => lid (snd kv)) d)
  /\ Forall (fun kv => match c with None => False | Some n => (lid (snd kv) <= n)%Z end) d.

(** [POINTS] holds distinct keys, each the truncated coordinates of its
    point; the ids are 1, 2, ..., n in insertion order, and the point
    counter is [n] ([None] before the first point). *)
Definition points_numbered (s : St) : Prop :=
  NoDup (map fst (POINTS s))
  /\ Forall (fun kp => fst kp = (strip_tollerence (x (snd kp)), strip_tollerence (y (snd kp)),
                                 strip_tollerence (z (snd kp)))) (POINTS s)
  /\ map (fun kp => id (snd kp)) (POINTS s) = map Z.of_nat (seq 1 (length (POINTS s)))
  /\ seq_points s = match POINTS s with [] => None | _ => Some (Z.of_nat (length (POINTS s))) end.

(** [m] keeps the state property [P] whenever it succeeds. *)
Definition preserves (P : St -> Prop) {A} (m : M A) : Prop :=
  forall s v s', m s = Ok (v, s') -> P s -> P s'.

(** [P] does not look at the stream. *)
Definition stream_indep (P : St -> Prop) : Prop := forall s l, P s -> P (set_stream s l).

(** The invariant of the [parse_entities] loop: the dictionary is well
    formed and its ids are bounded by the layer counter. *)
Definition dict_inv (d : layer_dict) (s : St) : Prop := dict_ok d /\ ids_ok d (seq_layers s).

(* ================================================================== *)
(** * Lemmas *)

Lemma str_app_assoc (s1 s2 s3 : string) : (s1 ++ s2) ++ s3 = s1 ++ (s2 ++ s3).
Proof. induction s1 as [|c s1 IH]; simpl; [reflexivity | now rewrite IH]. Qed.

Lemma str_app_nil_r (s : string) : s ++ EmptyString = s.
Proof. induction s as [|c s IH]; simpl; [reflexivity | now rewrite IH]. Qed.

Lemma prefix_single (c d : ascii) (r : string) :
  String.prefix (String c EmptyString) (String d r) = Ascii.eqb c d.
Proof.
  simpl. destruct (ascii_dec c d) as [->|Hne].
  - rewrite Ascii.eqb_refl. now destruct r.
  - symmetry. now apply Ascii.eqb_neq.
Qed.

(** Splitting at a one-character separator distributes over a separator. *)
Lemma split_go_single_app (c : ascii) (s1 s2 cur : string) :
  Py.split_go (String c EmptyString) (s1 ++ String c s2) 0 cur
  = (Py.split_go (String c EmptyString) s1 0 cur
     ++ Py.split_go (String c EmptyString) s2 0 EmptyString)%list.
Proof.
  revert cur. induction s1 as [|d s1 IH]; intro cur.
  - cbn [append Py.split_go]. rewrite prefix_single, Ascii.eqb_refl. reflexivity.
  - cbn [append Py.split_go]. rewrite !prefix_single.
    destruct (Ascii.eqb c d); simpl; rewrite IH; reflexivity.
Qed.

Lemma split_go_single_none (c : ascii) (s cur : string) :
  no_char c s = true ->
  Py.split_go (String c EmptyString) s 0 cur = [cur ++ s].
Proof.
  revert cur. induction s as [|d s IH]; intros cur H.
  - simpl. now rewrite str_app_nil_r.
  - unfold no_char in H. simpl in H. apply andb_prop in H as [Hd Hs].
    cbn [Py.split_go]. rewrite prefix_single.
    rewrite Ascii.eqb_sym. destruct (Ascii.eqb d c); [discriminate|].
    rewrite IH by exact Hs. now rewrite str_app_assoc.
Qed.

Lemma strip_tollerence_dot (i f : string) :
  no_char "." i = true -> no_char "." f = true ->
  strip_tollerence (i ++ "." ++ f) = i ++ "." ++ substring 0 3 f.
Proof.
  intros Hi Hf. unfold strip_tollerence, Py.split.
  change ("." ++ f) with (String "." f).
  rewrite split_go_single_app, !split_go_single_none by assumption.
  reflexivity.
Qed.

Lemma key_eqb_true (k1 k2 : key) : key_eqb k1 k2 = true <-> k1 = k2.
Proof.
  destruct k1 as [[a1 b1] c1], k2 as [[a2 b2] c2]; simpl.
  rewrite !andb_true_iff, !String.eqb_eq. split.
  - intros [[-> ->] ->]; reflexivity.
  - intro H; inversion H; auto.
Qed.

Lemma lookup_key_app (k : key) (d1 d2 : list (key * Point)) :
  lookup_key k (d1 ++ d2)
  = match lookup_key k d1 with Some p => Some p | None => lookup_key k d2 end.
Proof.
  induction d1 as [|[k' p'] d1 IH]; simpl; [reflexivity|].
  destruct (key_eqb k k'); auto.
Qed.

(** [point_factory] returns the stored point of its key, stores it if the
    key was new, and never changes a stored entry. *)
Lemma point_factory_spec (vx vy vz : string) (s : St) :
  let k := (strip_tollerence vx, strip_tollerence vy, strip_tollerence vz) in
  exists p s', point_factory vx vy vz s = Ok (p, s')
    /\ lookup_key k (POINTS s') = Some p
    /\ (lookup_key k (POINTS s) = None -> x p = vx /\ y p = vy /\ z p = vz)
    /\ (forall k' q, lookup_key k' (POINTS s) = Some q -> lookup_key k' (POINTS s') = Some q).
Proof.
  intro k. unfold point_factory. fold k.
  destruct (lookup_key k (POINTS s)) as [p|] eqn:E.
  - exists p, s. split; [reflexivity|]. split; [exact E|].
    split; [intro H; discriminate H | auto].
  - eexists. eexists. split; [reflexivity|]. simpl.
    rewrite lookup_key_app, E. simpl.
    rewrite !String.eqb_refl. simpl. repeat split; auto.
    intros k' q Hq. rewrite lookup_key_app, Hq. reflexivity.
Qed.

Lemma point_factory_many_keeps (ts : list (string * string * string)) :
  forall s ps s', point_factory_many ts s = Ok (ps, s') ->
  forall k q, lookup_key k (POINTS s) = Some q -> lookup_key k (POINTS s') = Some q.
Proof.
  induction ts as [|[[vx vy] vz] ts IH]; intros s ps s' H k q Hq; simpl in H.
  - inversion H; subst; assumption.
  - unfold bind in H.
    destruct (point_factory_spec vx vy vz s) as (p & s1 & E & _ & _ & Hkeep).
    rewrite E in H.
    destruct (point_factory_many ts s1) as [[ps1 s2]|e] eqn:E2; [|discriminate].
    inversion H; subst. eapply IH; [exact E2|]. now apply Hkeep.
Qed.





(** No layer of the dictionary has kind LWPOLYLINE. *)
Definition no_lw (d : layer_dict) : Prop :=
  Forall (fun kv => type (snd kv) <> "LWPOLYLINE") d.

Lemma dict_get_in (k : string) (v : Layer) (d : layer_dict) :
  dict_get k d = Some v -> In (k, v) d.
Proof.
  induction d as [|[k' v'] d IH]; simpl; [discriminate|].
  destruct (String.eqb k k') eqn:E; intro H.
  - apply String.eqb_eq in E; subst. inversion H; subst. now left.
  - right. now apply IH.
Qed.

Lemma no_lw_set (k : string) (v : Layer) (d : layer_dict) :
  type v <> "LWPOLYLINE" -> no_lw d -> no_lw (dict_set k v d).
Proof.
  intros Hv Hd. induction Hd as [|[k' v'] d Hkv Hd IH]; simpl.
  - constructor; [exact Hv | constructor].
  - destruct (String.eqb k k'); constructor; auto.
Qed.

Lemma no_lw_pop (k : string) (d : layer_dict) : no_lw d -> no_lw (snd (dict_pop k d)).
Proof.
  intro Hd. induction Hd as [|[k' v'] d Hkv Hd IH]; simpl; [constructor|].
  destruct (String.eqb k k'); [exact Hd|].
  destruct (dict_pop k d) as [o r]. simpl in *. constructor; auto.
Qed.

Lemma layer_append_type (f : string) (e : entity) (l l' : Layer) :
  layer_append f e l = Some l' -> type l' = type l.
Proof.
  destruct e; simpl;
    match goal with |- (if ?c then _ else _) = _ -> _ => destruct c end;
    intro H; inversion H; reflexivity.
Qed.

Lemma parse_and_append_no_lw (parser : M entity) (et nm : string) (layer : Layer)
    (layers : layer_dict) (s s' : St) (c : ctl) (layers' : layer_dict) :
  parse_and_append parser et nm layer layers s = Ok ((c, layers'), s') ->
  type layer <> "LWPOLYLINE" -> no_lw layers -> no_lw layers'.
Proof.
  unfold parse_and_append, bind. destruct (parser s) as [[e s1]|err]; [|discriminate].
  destruct (layer_append (ENTITY_MAPS et) e layer) as [l'|] eqn:E; [|discriminate].
  intros H Ht Hd. inversion H; subst. apply no_lw_set; [|exact Hd].
  rewrite (layer_append_type _ _ _ _ E). exact Ht.
Qed.

Lemma parse_layer_name_lw (layer_name : string) :
  parse_layer_name "LWPOLYLINE" layer_name = None.
Proof. reflexivity. Qed.

Lemma remove_invalid_layer_no_lw (nm : string) (layers layers' : layer_dict) (s s' : St) :
  remove_invalid_layer nm layers s = Ok (layers', s') -> no_lw layers -> no_lw layers'.
Proof.
  unfold remove_invalid_layer. intros H Hd.
  pose proof (no_lw_pop nm layers Hd) as Hp.
  destruct (dict_pop nm layers) as [[l|] r]; simpl in Hp;
    [destruct (seq_points s) as [[|n|n]|] |]; inversion H; subst; exact Hp.
Qed.

Lemma parse_entities_step_no_lw (layers : layer_dict) (s s' : St) (c : ctl) (layers' : layer_dict) :
  parse_entities_step layers s = Ok ((c, layers'), s') -> no_lw layers -> no_lw layers'.
Proof.
  unfold parse_entities_step. unfold bind at 1.
  destruct (read_code_value "  0" s) as [[et s1]|err]; [|discriminate].
  destruct (String.eqb et "ENDSEC" || String.eqb et "ENDOFFILE").
  { intros H Hd; inversion H; subst; exact Hd. }
  destruct (Py.isnumeric et).
  { intros H Hd; inversion H; subst; exact Hd. }
  destruct (ENTITY_PARSERS et) as [parser|].
  2: { intros H Hd; inversion H; subst; exact Hd. }
  unfold bind at 1. destruct (read_code_value "  8" s1) as [[nm s2]|err]; [|discriminate].
  destruct (dict_get nm layers) as [layer|] eqn:Eg.
  - destruct (negb (String.eqb (type layer) et)).
    + unfold bind. destruct (remove_invalid_layer nm layers s2) as [[l2 s3]|err] eqn:Er;
        [|discriminate].
      intros H Hd. inversion H; subst. eapply remove_invalid_layer_no_lw; eauto.
    + intros H Hd. eapply parse_and_append_no_lw; [exact H| |exact Hd].
      apply dict_get_in in Eg. unfold no_lw in Hd. rewrite Forall_forall in Hd. exact (Hd _ Eg).
  - destruct (attrs_falsy (parse_layer_name et nm)) eqn:Ea.
    { intros H Hd; inversion H; subst; exact Hd. }
    unfold bind at 1. destruct (next_layer_id s2) as [[lid2 s3]|err]; [|discriminate].
    intros H Hd. eapply parse_and_append_no_lw; [exact H| |].
    + simpl. intro Het. rewrite Het in Ea. discriminate.
    + apply no_lw_set; [|exact Hd]. simpl. intro Het. rewrite Het in Ea. discriminate.
Qed.

Lemma parse_entities_loop_no_lw (fuel : nat) :
  forall layers s layers' s',
  parse_entities_loop fuel layers s = Ok (layers', s') -> no_lw layers -> no_lw layers'.
Proof.
  induction fuel as [|fuel IH]; intros layers s layers' s' H Hd; simpl in H.
  - inversion H; subst; exact Hd.
  - unfold bind in H.
    destruct (parse_entities_step layers s) as [[[c l1] s1]|err] eqn:E; [|discriminate].
    pose proof (parse_entities_step_no_lw _ _ _ _ _ E Hd) as H1.
    destruct c; [eapply IH; eauto | inversion H; subst; exact H1].
Qed.

Ltac z_cases :=
  repeat match goal with
  | |- context [Z.eqb ?u ?u] => rewrite Z.eqb_refl
  | |- context [Z.eq_dec ?u ?u] => destruct (Z.eq_dec u u); [|congruence]
  | |- context [Z.eqb ?u ?v] => destruct (Z.eqb_spec u v); [subst|]
  | |- context [Z.eq_dec ?u ?v] => destruct (Z.eq_dec u v); [subst|]
  | _ => progress cbn
  end.

Lemma unique_points_four (pa pb pc pd : Point) :
  unique_points [pa; pb; pc; pd] = first_occurrences [pa; pb; pc; pd]
  /\ length (unique_points [pa; pb; pc; pd])
     = length (nodup Z.eq_dec [id pa; id pb; id pc; id pd]).
Proof.
  destruct pa as [xa ya za ia], pb as [xb yb zb ib], pc as [xc yc zc ic], pd as [xd yd zd id'].
  unfold unique_points, first_occurrences. cbn [id].
  split; z_cases; try congruence; reflexivity.
Qed.

Lemma prefix_app (p s t : string) :
  String.length p <= String.length s -> String.prefix p (s ++ t) = String.prefix p s.
Proof.
  revert s. induction p as [|c p IH]; intros s Hl.
  - destruct s, t; reflexivity.
  - destruct s as [|d s]; simpl in Hl; [lia|].
    cbn [append String.prefix]. destruct (ascii_dec c d); [apply IH; lia | reflexivity].
Qed.

Lemma split_go_none (sep s cur : string) :
  occurs sep s = false -> Py.split_go sep s 0 cur = [cur ++ s].
Proof.
  revert cur. induction s as [|c s IH]; intros cur H.
  - simpl. now rewrite str_app_nil_r.
  - change (String.prefix sep (String c s) || occurs sep s = false) in H.
    apply orb_false_iff in H as [Hp Ho].
    cbn [Py.split_go]. rewrite Hp, IH by exact Ho. now rewrite str_app_assoc.
Qed.

(** "DOF " has no proper border: an occurrence cannot start inside a
    prefix free of occurrences and end in a following "DOF ". *)
Lemma prefix_DOF_border (c : ascii) (r t : string) :
  occurs "DOF " (String c r) = false -> String.prefix "DOF " (String c r ++ "DOF " ++ t) = false.
Proof.
  intro H. change (String.prefix "DOF " (String c r) || occurs "DOF " r = false) in H.
  apply orb_false_iff in H as [Hp _].
  destruct r as [|c1 [|c2 [|c3 r]]].
  1-3: cbn [append String.prefix];
       repeat match goal with
       | |- context [ascii_dec ?u ?v] =>
           let E := fresh "E" in destruct (ascii_dec u v) as [E|E]; [try discriminate E|]
       end; reflexivity.
  - change (String c (String c1 (String c2 (String c3 r))) ++ "DOF " ++ t)
      with (String c (String c1 (String c2 (String c3 r))) ++ ("DOF " ++ t)).
    rewrite prefix_app by (simpl; lia). exact Hp.
Qed.

Lemma split_DOF_marker (pre t cur : string) :
  occurs "DOF " pre = false ->
  Py.split_go "DOF " (pre ++ "DOF " ++ t) 0 cur = (cur ++ pre) :: Py.split_go "DOF " t 0 EmptyString.
Proof.
  revert cur. induction pre as [|c pre IH]; intros cur H.
  - rewrite str_app_nil_r. cbn [append].
    assert (Hp : String.prefix "DOF " (String "D" (String "O" (String "F" (String " " t)))) = true)
      by (destruct t; reflexivity).
    cbn [Py.split_go]. rewrite Hp. reflexivity.
  - pose proof (prefix_DOF_border c pre t H) as Hb.
    change (String.prefix "DOF " (String c pre) || occurs "DOF " pre = false) in H.
    apply orb_false_iff in H as [_ Ho].
    change ((String c pre) ++ "DOF " ++ t) with (String c (pre ++ "DOF " ++ t)).
    cbn [Py.split_go]. change (String c (pre ++ "DOF " ++ t)) with (String c pre ++ "DOF " ++ t).
    rewrite Hb, IH by exact Ho. now rewrite str_app_assoc.
Qed.

Lemma split_DOF_two (pre t : string) :
  occurs "DOF " pre = false -> occurs "DOF " t = false ->
  Py.split (pre ++ "DOF " ++ t) "DOF " = [pre; t].
Proof.
  intros Hp Ht. unfold Py.split. rewrite split_DOF_marker by exact Hp.
  rewrite split_go_none by exact Ht. reflexivity.
Qed.

Lemma parse_layer_name_point_marker (pre t : string) :
  occurs "DOF " pre = false -> occurs "DOF " t = false ->
  parse_layer_name "POINT" (pre ++ "DOF " ++ t)
  = if negb (sorted_le (map (fun d => Py.str_int (DOF_MAP d)) (kept_dofs t)))
    then Some [] else Some (map AStr (kept_dofs t)).
Proof.
  intros Hp Ht. unfold parse_layer_name. rewrite split_DOF_two by assumption. reflexivity.
Qed.

Lemma parse_layer_name_point_no_marker (layer_name : string) :
  occurs "DOF " layer_name = false -> parse_layer_name "POINT" layer_name = Some [].
Proof.
  intro H. unfold parse_layer_name, Py.split. rewrite split_go_none by exact H. reflexivity.
Qed.

Lemma mem_DOF_VALUES (d : string) :
  mem d DOF_VALUES = true -> d = "x" \/ d = "y" \/ d = "z" \/ d = "fx" \/ d = "fy" \/ d = "fz".
Proof.
  unfold mem, DOF_VALUES. simpl. rewrite !orb_true_iff, !String.eqb_eq.
  intuition discriminate.
Qed.

Lemma kept_dofs_known (t : string) : Forall (fun d => mem d DOF_VALUES = true) (kept_dofs t).
Proof.
  unfold kept_dofs. apply Forall_forall. intros d Hd.
  apply in_map_iff in Hd as (d0 & <- & Hd0). apply filter_In in Hd0 as [_ H]. exact H.
Qed.

(** On DOF tokens, comparing the codes as one-digit strings is comparing
    them as numbers. *)
Lemma str_code_leb (d1 d2 : string) :
  mem d1 DOF_VALUES = true -> mem d2 DOF_VALUES = true ->
  String.leb (Py.str_int (DOF_MAP d1)) (Py.str_int (DOF_MAP d2)) = Z.leb (DOF_MAP d1) (DOF_MAP d2).
Proof.
  intros H1 H2. apply mem_DOF_VALUES in H1, H2.
  destruct H1 as [-> | [-> | [-> | [-> | [-> | ->]]]]]; destruct H2 as [-> | [-> | [-> | [-> | [-> | ->]]]]];
    reflexivity.
Qed.

Lemma sorted_le_codes (ks : list string) :
  Forall (fun d => mem d DOF_VALUES = true) ks ->
  sorted_le (map (fun d => Py.str_int (DOF_MAP d)) ks) = sorted_codes (map DOF_MAP ks).
Proof.
  induction ks as [|d1 ks IH]; intro H; [reflexivity|].
  inversion H as [|? ? H1 Hr]; subst.
  destruct ks as [|d2 ks]; [reflexivity|].
  inversion Hr as [|? ? H2 _]; subst.
  change (String.leb (Py.str_int (DOF_MAP d1)) (Py.str_int (DOF_MAP d2))
          && sorted_le (map (fun d => Py.str_int (DOF_MAP d)) (d2 :: ks))
          = Z.leb (DOF_MAP d1) (DOF_MAP d2) && sorted_codes (map DOF_MAP (d2 :: ks))).
  rewrite str_code_leb, IH by assumption. reflexivity.
Qed.

Lemma lower_app (s1 s2 : string) : Py.lower (s1 ++ s2) = Py.lower s1 ++ Py.lower s2.
Proof. induction s1 as [|c s1 IH]; simpl; [reflexivity | now rewrite IH]. Qed.

Lemma lower_char_space (d : ascii) : Ascii.eqb (Py.lower_char d) " " = Ascii.eqb d " ".
Proof. destruct d as [[] [] [] [] [] [] [] []]; reflexivity. Qed.

Lemma no_char_lower (q : string) : no_char " " q = true -> no_char " " (Py.lower q) = true.
Proof.
  induction q as [|d q IH]; [reflexivity|].
  unfold no_char in *. simpl in *. rewrite lower_char_space.
  intro H. apply andb_prop in H as [Hd Hq]. rewrite Hd. simpl. now apply IH.
Qed.

Lemma split_space_token (a q b : string) :
  no_char " " q = true ->
  Py.split (a ++ " " ++ q ++ " " ++ b) " " = (Py.split a " " ++ [q] ++ Py.split b " ")%list.
Proof.
  intro Hq. unfold Py.split.
  change (a ++ " " ++ q ++ " " ++ b) with (a ++ String " " (q ++ String " " b)).
  change " " with (String " " EmptyString).
  rewrite !split_go_single_app, (split_go_single_none " " q EmptyString Hq). reflexivity.
Qed.

Lemma split_space_two (a b : string) :
  Py.split (a ++ " " ++ b) " " = (Py.split a " " ++ Py.split b " ")%list.
Proof.
  unfold Py.split. change (a ++ " " ++ b) with (a ++ String " " b).
  change " " with (String " " EmptyString). apply split_go_single_app.
Qed.

Lemma findall_go_nil (c : ascii) (s : string) :
  forall acc, findall_go c s acc = []
  <-> (match acc with Some ds => ds = EmptyString /\ starts_digit s = false | None => True end)
      /\ has_letter_digit c s = false.
Proof.
  induction s as [|ch r IH]; intro acc.
  - destruct acc as [[|d ds]|]; simpl; split; intuition discriminate.
  - assert (Hnext : findall_go c r (if Ascii.eqb ch c then Some EmptyString else None) = []
                    <-> has_letter_digit c (String ch r) = false).
    { rewrite IH. simpl. destruct (Ascii.eqb ch c); simpl.
      - rewrite orb_false_iff. tauto.
      - tauto. }
    destruct acc as [ds|]; cbn [findall_go].
    + destruct (Py.is_digit ch) eqn:Ed.
      * rewrite IH. simpl. rewrite Ed.
        split; [intros [[Hds _] _]; destruct ds; discriminate | intros [[_ Hf] _]; discriminate].
      * simpl starts_digit. rewrite Ed.
        destruct ds as [|d ds]; simpl.
        -- rewrite Hnext. tauto.
        -- split; [discriminate | intros [[H _] _]; discriminate].
    + rewrite Hnext. tauto.
Qed.

Lemma findall_nil (c : ascii) (s : string) :
  findall c s = [] <-> has_letter_digit c s = false.
Proof. unfold findall. rewrite findall_go_nil. tauto. Qed.

Lemma parse_layer_name_line (layer_name : string) :
  parse_layer_name "LINE" layer_name
  = if has_letter_digit "B" layer_name && has_letter_digit "H" layer_name
    then Some [AFloat (first_match_value "B" layer_name); AFloat (first_match_value "H" layer_name)]
    else Some [].
Proof.
  unfold parse_layer_name, first_match_value. cbn [String.eqb Ascii.eqb Bool.eqb].
  destruct (findall "B" layer_name) as [|bv bs] eqn:EB;
    [apply findall_nil in EB; rewrite EB; reflexivity|].
  assert (HB : has_letter_digit "B" layer_name = true).
  { destruct (has_letter_digit "B" layer_name) eqn:E; [reflexivity|].
    apply findall_nil in E. congruence. }
  destruct (findall "H" layer_name) as [|hv hs] eqn:EH.
  - apply findall_nil in EH. rewrite HB, EH. reflexivity.
  - assert (HH : has_letter_digit "H" layer_name = true).
    { destruct (has_letter_digit "H" layer_name) eqn:E; [reflexivity|].
      apply findall_nil in E. congruence. }
    rewrite HB, HH. reflexivity.
Qed.

(** Section 1 of the exporter, loop by loop. *)
Lemma concat_cons_ne (sep x : string) (l : list string) :
  l <> [] -> String.concat sep (x :: l) = x ++ sep ++ String.concat sep l.
Proof. destruct l; [congruence | reflexivity]. Qed.

Lemma lines_loop_spec (layer_id : Z) (ls : list Line) (acc : list string) :
  Exporter.lines_loop layer_id ls acc
  = (acc ++ map (fun l => Exporter.spec_record "5" [layer_id; id (a l); id (b l)]) ls)%list.
Proof.
  revert acc; induction ls as [|l r IH]; intro acc; cbn [Exporter.lines_loop map].
  - now rewrite app_nil_r.
  - rewrite IH, <- app_assoc. cbn [app]. do 3 f_equal.
    unfold Exporter.spec_record. cbn [String.concat map].
    rewrite !str_app_assoc. reflexivity.
Qed.

Lemma faces_loop_spec (layer_id : Z) (fs : list ThreeDFace) (acc : list string) :
  Forall (fun f => face_points f <> []) fs ->
  Exporter.faces_loop layer_id fs acc
  = (acc ++ map (fun f => Exporter.spec_record
                            (if (length (face_points f) =? 3)%nat then "42" else "44")
                            (layer_id :: map id (face_points f))) fs)%list.
Proof.
  revert acc; induction fs as [|f r IH]; intros acc Hf; cbn [Exporter.faces_loop map].
  - now rewrite app_nil_r.
  - inversion Hf as [|? ? Hne Hr]; subst.
    unfold Exporter.spec_record. cbn [map].
    rewrite concat_cons_ne by (destruct (face_points f); [congruence | discriminate]).
    rewrite map_map.
    destruct (length (face_points f) =? 3)%nat;
      rewrite IH by exact Hr; rewrite <- app_assoc; cbn [app];
      rewrite !str_app_assoc; reflexivity.
Qed.

Lemma entities_loop_spec (layers : list Layer) (out : list string) :
  Forall (fun layer => Forall (fun f => face_points f <> []) (faces layer)) layers ->
  Exporter.entities_loop layers out = (out ++ Exporter.spec_section1 layers)%list.
Proof.
  revert out; induction layers as [|L r IH]; intros out HL; cbn [Exporter.entities_loop].
  - unfold Exporter.spec_section1. simpl. now rewrite app_nil_r.
  - inversion HL as [|? ? HF Hr]; subst.
    rewrite IH by exact Hr.
    rewrite faces_loop_spec by exact HF. rewrite lines_loop_spec.
    change (Exporter.spec_section1 (L :: r))
      with (Exporter.spec_layer_records L ++ Exporter.spec_section1 r)%list.
    unfold Exporter.spec_layer_records. rewrite !app_assoc, app_nil_r. reflexivity.
Qed.

(** The scan of [read_code_value] passes over lines other than the code line. *)
Lemma read_code_value_go_skip (target : string) (pre r : list string) :
  Forall (fun l => l <> target) pre ->
  read_code_value_go target (pre ++ r) = read_code_value_go target r.
Proof.
  induction pre as [|l pre IH]; intro H; [reflexivity|].
  inversion H as [|? ? Hl Hp]; subst. cbn [app read_code_value_go].
  apply String.eqb_neq in Hl. rewrite Hl. now apply IH.
Qed.

(* ------------------------------------------------------------------ *)
(** ** State properties kept by the entity parsers *)

Lemma pres_ret (P : St -> Prop) {A} (v : A) : preserves P (ret v).
Proof. intros s v' s' H Hs. inversion H; subst; exact Hs. Qed.

Lemma pres_raise (P : St -> Prop) {A} (e : exc) : preserves P (@raise A e).
Proof. intros s v s' H. discriminate H. Qed.

Lemma pres_bind (P : St -> Prop) {A B} (m : M A) (k : A -> M B) :
  preserves P m -> (forall v, preserves P (k v)) -> preserves P (bind m k).
Proof.
  intros Hm Hk s v s' H Hs. unfold bind in H.
  destruct (m s) as [[v1 s1]|e] eqn:E; [|discriminate].
  eapply Hk; [exact H|]. eapply Hm; eauto.
Qed.

Lemma pres_read_code_value (P : St -> Prop) (code : string) :
  stream_indep P -> preserves P (read_code_value code).
Proof.
  intros HP s v s' H Hs. unfold read_code_value in H.
  destruct (read_code_value_go (code ++ Py.nl) (stream s)) as [v1 r].
  inversion H; subst. now apply HP.
Qed.

Lemma pres_readline (P : St -> Prop) : stream_indep P -> preserves P readline.
Proof.
  intros HP s v s' H Hs. unfold readline in H.
  destruct (stream s) as [|l r]; inversion H; subst; [exact Hs | now apply HP].
Qed.

Section Parsers.

Variable P : St -> Prop.
Hypothesis HP : stream_indep P.
Hypothesis Hpf : forall vx vy vz, preserves P (point_factory vx vy vz).

Lemma pres_read_codes (codes : list string) : preserves P (read_codes codes).
Proof.
  induction codes as [|c cs IH]; simpl; [apply pres_ret|].
  apply pres_bind; [now apply pres_read_code_value|]. intro v.
  apply pres_bind; [exact IH|]. intro; apply pres_ret.
Qed.

Lemma pres_read_point (cx cy cz : string) : preserves P (read_point cx cy cz).
Proof.
  unfold read_point. apply pres_bind; [apply pres_read_codes|].
  intros [|vx [|vy [|vz [|? ?]]]]; try apply pres_raise. apply Hpf.
Qed.

Lemma pres_parse_LWPOLYLINE_loop (k : nat) : forall pts, preserves P (parse_LWPOLYLINE_loop k pts).
Proof.
  induction k as [|k IH]; intro pts; simpl; [apply pres_ret|].
  apply pres_bind; [now apply pres_readline|]. intro line.
  destruct (String.eqb line ""); [apply pres_ret|].
  destruct (String.eqb line "  0"); [apply pres_ret|].
  apply pres_bind; [now apply pres_read_code_value|]. intro vy.
  apply pres_bind; [apply Hpf|]. intro p.
  apply pres_bind; [apply pres_raise|]. intro q. apply IH.
Qed.

Lemma pres_entity_parser (t : string) (parser : M entity) :
  ENTITY_PARSERS t = Some parser -> preserves P parser.
Proof.
  unfold ENTITY_PARSERS.
  destruct (String.eqb t "POINT"); [intro H; inversion H; subst|].
  { apply pres_bind; [apply pres_read_point|]. intro; apply pres_ret. }
  destruct (String.eqb t "LINE"); [intro H; inversion H; subst|].
  { apply pres_bind; [|intro; apply pres_ret]. unfold parse_LINE.
    apply pres_bind; [apply pres_read_point|]. intro.
    apply pres_bind; [apply pres_read_point|]. intro. apply pres_ret. }
  destruct (String.eqb t "3DFACE"); [intro H; inversion H; subst|].
  { apply pres_bind; [|intro; apply pres_ret]. unfold parse_3DFACE.
    repeat (apply pres_bind; [apply pres_read_point|]; intro). apply pres_ret. }
  destruct (String.eqb t "LWPOLYLINE"); [intro H; inversion H; subst|discriminate].
  apply pres_bind; [|intro; apply pres_ret]. unfold parse_LWPOLYLINE.
  apply pres_bind; [now apply pres_read_code_value|]. intro n.
  destruct (Py.int_of_string n); [|apply pres_raise].
  apply pres_bind; [apply pres_parse_LWPOLYLINE_loop|]. intro; apply pres_ret.
Qed.

End Parsers.

(** The entity parsers never touch the layer counter. *)
Lemma entity_parser_seq_layers (t : string) (parser : M entity) (s s' : St) (e : entity) :
  ENTITY_PARSERS t = Some parser -> parser s = Ok (e, s') -> seq_layers s' = seq_layers s.
Proof.
  intros Ht H.
  apply (pres_entity_parser (fun st => seq_layers st = seq_layers s)) with (t := t) (parser := parser) (s := s) (v := e);
    auto.
  - intros st l Hst. exact Hst.
  - intros vx vy vz st v st' Hf Hst. rewrite <- Hst. unfold point_factory in Hf.
    destruct (lookup_key _ (POINTS st)); inversion Hf; subst; reflexivity.
Qed.

Lemma lookup_key_none_notin (k : key) (d : list (key * Point)) :
  lookup_key k d = None -> ~ In k (map fst d).
Proof.
  induction d as [|[k' p] d IH]; simpl; [auto|].
  destruct (key_eqb k k') eqn:E; [discriminate|].
  intros H [Hk|Hin]; [|exact (IH H Hin)].
  subst k'. rewrite (proj2 (key_eqb_true k k) eq_refl) in E. discriminate.
Qed.

Lemma points_numbered_point_factory (vx vy vz : string) :
  preserves points_numbered (point_factory vx vy vz).
Proof.
  intros s p s' H (Hnd & Hk & Hid & Hc). unfold point_factory in H.
  destruct (lookup_key _ (POINTS s)) as [q|] eqn:E; [inversion H; subst; repeat split; assumption|].
  unfold next_point_id in H. cbn [POINTS stream seq_points seq_layers] in H.
  inversion H; subst; clear H. cbn [POINTS seq_points].
  set (n := length (POINTS s)).
  assert (Hv : match seq_points s with None => 1%Z | Some m => (m + 1)%Z end = Z.of_nat (S n)).
  { rewrite Hc. unfold n. destruct (POINTS s); simpl; lia. }
  rewrite Hv. unfold points_numbered. cbn [POINTS seq_points]. split; [|split; [|split]].
  - rewrite map_app. apply NoDup_app; [exact Hnd | constructor; [auto | constructor] |].
    intros k Hk1 [Hk2|[]]. subst k. exact (lookup_key_none_notin _ _ E Hk1).
  - apply Forall_app. split; [exact Hk | constructor; [reflexivity | constructor]].
  - rewrite length_app, Nat.add_1_r, seq_S, !map_app, Hid. reflexivity.
  - destruct (POINTS s ++ _)%list as [|h t] eqn:El; [destruct (POINTS s); discriminate|].
    rewrite <- El, length_app. f_equal. unfold n. cbn [length]. lia.
Qed.

(** ** [strip_tollerence] *)

Lemma no_char_app (c : ascii) (s1 s2 : string) :
  no_char c (s1 ++ s2) = no_char c s1 && no_char c s2.
Proof.
  induction s1 as [|d s1 IH]; [reflexivity|].
  unfold no_char in *. simpl. rewrite IH. apply andb_assoc.
Qed.

Lemma split_go_pieces (c : ascii) (s cur : string) :
  no_char c cur = true ->
  Forall (fun t => no_char c t = true) (Py.split_go (String c EmptyString) s 0 cur).
Proof.
  revert cur. induction s as [|d r IH]; intros cur Hc; cbn [Py.split_go].
  - constructor; [exact Hc | constructor].
  - rewrite prefix_single. destruct (Ascii.eqb c d) eqn:E.
    + constructor; [exact Hc|]. apply IH. reflexivity.
    + apply IH. rewrite no_char_app, Hc. unfold no_char. simpl.
      rewrite Ascii.eqb_sym, E. reflexivity.
Qed.

Lemma substring0_idem (m : nat) (s : string) :
  substring 0 m (substring 0 m s) = substring 0 m s.
Proof.
  revert s. induction m as [|m IH]; intro s; [now destruct s|].
  destruct s as [|c s]; [reflexivity|]. simpl. now rewrite IH.
Qed.

Lemma no_char_substring0 (c : ascii) (m : nat) (s : string) :
  no_char c s = true -> no_char c (substring 0 m s) = true.
Proof.
  revert s. induction m as [|m IH]; intros s H; [now destruct s|].
  destruct s as [|d s]; [reflexivity|]. unfold no_char in *. simpl in *.
  apply andb_prop in H as [H1 H2]. rewrite H1. now apply IH.
Qed.

Lemma strip_tollerence_eq (num : string) :
  strip_tollerence num
  = match Py.split num "." with [f0; f1] => f0 ++ "." ++ substring 0 3 f1 | _ => num end.
Proof. reflexivity. Qed.

(** ** [unique_points] on any number of points *)

Lemma existsb_Zeqb (v : Z) (l : list Z) : existsb (Z.eqb v) l = true <-> In v l.
Proof.
  rewrite existsb_exists. split.
  - intros (w & Hw & E). apply Z.eqb_eq in E. now subst.
  - intro H. exists v. split; [exact H | apply Z.eqb_refl].
Qed.

Lemma unique_points_go_spec (pts : list Point) :
  forall acc ids,
  (forall i, In i ids <-> In i (map id acc)) -> NoDup (map id acc) ->
  NoDup (map id (unique_points_go pts acc ids))
  /\ (forall p, In p (unique_points_go pts acc ids) -> In p acc \/ In p pts)
  /\ (forall p, In p pts -> In (id p) (map id (unique_points_go pts acc ids)))
  /\ (forall i, In i (map id acc) -> In i (map id (unique_points_go pts acc ids))).
Proof.
  induction pts as [|p r IH]; intros acc ids Hids Hnd; simpl.
  - split; [exact Hnd|]. split; [auto|]. split; [intros _ []|auto].
  - destruct (existsb (Z.eqb (id p)) ids) eqn:E.
    + apply existsb_Zeqb, Hids in E.
      destruct (IH acc ids Hids Hnd) as (H1 & H2 & H3 & H4).
      split; [exact H1|]. split; [intros q Hq; destruct (H2 q Hq); auto|].
      split; [intros q [<-|Hq]; auto | exact H4].
    + assert (Hn : ~ In (id p) (map id acc)).
      { intro Hin. apply Hids, existsb_Zeqb in Hin. congruence. }
      assert (Hids' : forall i, In i (id p :: ids) <-> In i (map id (acc ++ [p]))).
      { intro i. specialize (Hids i). rewrite map_app, in_app_iff. simpl. tauto. }
      assert (Hnd' : NoDup (map id (acc ++ [p]))).
      { rewrite map_app. apply NoDup_app; [exact Hnd | repeat constructor; auto |].
        intros i Hi [Hi'|[]]. subst. contradiction. }
      destruct (IH _ _ Hids' Hnd') as (H1 & H2 & H3 & H4).
      split; [exact H1|].
      split; [intros q Hq; destruct (H2 q Hq) as [Hq'|Hq']; [apply in_app_iff in Hq' as [|[<-|[]]]|]; auto|].
      split.
      * intros q [<-|Hq]; [|auto]. apply H4. rewrite map_app, in_app_iff. simpl; auto.
      * intros i Hi. apply H4. rewrite map_app, in_app_iff. auto.
Qed.

Lemma unique_points_go_distinct (pts : list Point) :
  forall acc ids, NoDup (map id pts) -> (forall p, In p pts -> ~ In (id p) ids) ->
  unique_points_go pts acc ids = (acc ++ pts)%list.
Proof.
  induction pts as [|p r IH]; intros acc ids Hnd Hout; simpl; [now rewrite app_nil_r|].
  inversion Hnd as [|? ? Hp Hr]; subst.
  destruct (existsb (Z.eqb (id p)) ids) eqn:E.
  { apply existsb_Zeqb in E. exfalso. exact (Hout p (or_introl eq_refl) E). }
  rewrite IH; [now rewrite <- app_assoc | exact Hr|].
  intros q Hq [Hqp|Hq']; [|exact (Hout q (or_intror Hq) Hq')].
  apply Hp. rewrite Hqp. now apply in_map.
Qed.

(** ** The layer dictionary of [parse_entities] *)

Lemma dict_get_none_notin (k : string) (d : layer_dict) :
  dict_get k d = None -> ~ In k (map fst d).
Proof.
  induction d as [|[k' v] d IH]; simpl; [auto|].
  destruct (String.eqb k k') eqn:E; [discriminate|].
  intros H [Hk|Hin]; [|exact (IH H Hin)].
  subst. rewrite String.eqb_refl in E. discriminate.
Qed.

Lemma dict_set_new (k : string) (v : Layer) (d : layer_dict) :
  dict_get k d = None -> dict_set k v d = (d ++ [(k, v)])%list.
Proof.
  induction d as [|[k' v'] d IH]; simpl; [reflexivity|].
  destruct (String.eqb k k'); [discriminate|]. intro H. now rewrite IH.
Qed.

Lemma dict_set_twice (k : string) (v1 v2 : Layer) (d : layer_dict) :
  dict_set k v2 (dict_set k v1 d) = dict_set k v2 d.
Proof.
  induction d as [|[k' v'] d IH]; simpl.
  - now rewrite String.eqb_refl.
  - destruct (String.eqb k k') eqn:E; simpl; rewrite E; [reflexivity|]. now rewrite IH.
Qed.

Lemma dict_set_keys (k : string) (v : Layer) (d : layer_dict) (old : Layer) :
  dict_get k d = Some old -> map fst (dict_set k v d) = map fst d.
Proof.
  induction d as [|[k' v'] d IH]; simpl; [discriminate|].
  destruct (String.eqb k k'); [reflexivity|]. intro H. simpl. now rewrite IH.
Qed.

Lemma dict_set_lids (k : string) (v : Layer) (d : layer_dict) (old : Layer) :
  dict_get k d = Some old -> lid v = lid old ->
  map (fun kv => lid (snd kv)) (dict_set k v d) = map (fun kv => lid (snd kv)) d.
Proof.
  induction d as [|[k' v'] d IH]; simpl; [discriminate|].
  destruct (String.eqb k k'); intros H Hl.
  - inversion H; subst. simpl. now rewrite Hl.
  - simpl. now rewrite IH.
Qed.

Lemma Forall_dict_set (P : string * Layer -> Prop) (k : string) (v : Layer) (d : layer_dict) :
  Forall P d -> P (k, v) -> Forall P (dict_set k v d).
Proof.
  intros Hd Hk. induction Hd as [|[k' v'] d Hkv Hd IH]; simpl.
  - constructor; [exact Hk | constructor].
  - destruct (String.eqb k k') eqn:E.
    + apply String.eqb_eq in E. subst. constructor; assumption.
    + constructor; assumption.
Qed.

Lemma dict_pop_sub (k : string) (d : layer_dict) :
  snd (dict_pop k d) = d
  \/ exists d1 kv d2, d = (d1 ++ kv :: d2)%list /\ snd (dict_pop k d) = (d1 ++ d2)%list.
Proof.
  induction d as [|[k' v] d IH]; simpl; [now left|].
  destruct (String.eqb k k').
  - right. exists [], (k', v), d. split; reflexivity.
  - destruct (dict_pop k d) as [o r]. simpl in *. destruct IH as [->|(d1 & kv & d2 & -> & ->)].
    + now left.
    + right. exists ((k', v) :: d1), kv, d2. split; reflexivity.
Qed.

Lemma StronglySorted_remove {A} (R : A -> A -> Prop) (l1 l2 : list A) (a : A) :
  StronglySorted R (l1 ++ a :: l2) -> StronglySorted R (l1 ++ l2).
Proof.
  induction l1 as [|b l1 IH]; simpl; intro H.
  - now apply StronglySorted_inv in H.
  - apply StronglySorted_inv in H as [H1 H2]. constructor; [now apply IH|].
    apply Forall_app in H2 as [H2 H3]. inversion H3; subst. apply Forall_app; split; assumption.
Qed.

Lemma StronglySorted_snoc {A} (R : A -> A -> Prop) (l : list A) (a : A) :
  StronglySorted R l -> Forall (fun b => R b a) l -> StronglySorted R (l ++ [a]).
Proof.
  induction l as [|b l IH]; simpl; intros H Hf.
  - repeat constructor.
  - apply StronglySorted_inv in H as [H1 H2]. inversion Hf as [|? ? Hb Hl]; subst.
    constructor; [now apply IH|]. apply Forall_app; split; [exact H2 | now constructor].
Qed.

Lemma dict_inv_pop (k : string) (d : layer_dict) (c : option Z) :
  dict_ok d -> ids_ok d c -> dict_ok (snd (dict_pop k d)) /\ ids_ok (snd (dict_pop k d)) c.
Proof.
  intros [Hnd Hf] [Hs Hb].
  destruct (dict_pop_sub k d) as [->|(d1 & kv & d2 & -> & ->)]; [repeat split; assumption|].
  repeat split.
  - rewrite map_app in *. simpl in Hnd. eapply NoDup_remove_1; exact Hnd.
  - apply Forall_app in Hf as [H1 H2]. inversion H2; subst. apply Forall_app; split; assumption.
  - rewrite map_app in *. simpl in Hs. eapply StronglySorted_remove; exact Hs.
  - apply Forall_app in Hb as [H1 H2]. inversion H2; subst. apply Forall_app; split; assumption.
Qed.

Lemma read_code_value_seq_layers (code v : string) (s s1 : St) :
  read_code_value code s = Ok (v, s1) -> seq_layers s1 = seq_layers s.
Proof.
  unfold read_code_value. destruct (read_code_value_go _ _). intro H. now inversion H.
Qed.

(** [remove_invalid_layer] only pops the layer and may lower the point
    counter. *)
Lemma remove_invalid_layer_facts (nm : string) (d d' : layer_dict) (s s' : St) :
  remove_invalid_layer nm d s = Ok (d', s') ->
  d' = snd (dict_pop nm d) /\ POINTS s' = POINTS s /\ stream s' = stream s
  /\ seq_layers s' = seq_layers s.
Proof.
  unfold remove_invalid_layer. destruct (dict_pop nm d) as [[L|] r]; simpl.
  - destruct (seq_points s) as [[|n|n]|]; intro H; inversion H; subst; auto.
  - intro H; inversion H; subst; auto.
Qed.

Lemma entity_parser_kind (t : string) (parser : M entity) (s s' : St) (e : entity) :
  ENTITY_PARSERS t = Some parser -> parser s = Ok (e, s') ->
  (t = "POINT" /\ exists p, e = EPoint p) \/ (t = "LINE" /\ exists l, e = ELine l)
  \/ (t = "3DFACE" /\ exists f, e = EFace f) \/ (t = "LWPOLYLINE" /\ exists l, e = EPoly l).
Proof.
  unfold ENTITY_PARSERS.
  destruct (String.eqb_spec t "POINT") as [->|_]; [intro Hp; inversion Hp; subst; clear Hp|].
  { unfold bind. destruct (parse_POINT s) as [[p s1]|]; intro H; inversion H; subst. eauto. }
  destruct (String.eqb_spec t "LINE") as [->|_]; [intro Hp; inversion Hp; subst; clear Hp|].
  { unfold bind at 1. destruct (parse_LINE s) as [[l s1]|]; intro H; inversion H; subst. eauto 6. }
  destruct (String.eqb_spec t "3DFACE") as [->|_]; [intro Hp; inversion Hp; subst; clear Hp|].
  { unfold bind at 1. destruct (parse_3DFACE s) as [[f s1]|]; intro H; inversion H; subst. eauto 8. }
  destruct (String.eqb_spec t "LWPOLYLINE") as [->|_]; [intro Hp; inversion Hp; subst; clear Hp|discriminate].
  unfold bind at 1. destruct (parse_LWPOLYLINE s) as [[l s1]|]; intro H; inversion H; subst. eauto 8.
Qed.

Lemma parse_layer_name_shape (t nm : string) (ats : list attr) :
  parse_layer_name t nm = Some ats -> ats <> [] ->
  (t = "LINE" /\ exists bv hv, ats = [AFloat bv; AFloat hv])
  \/ (t = "3DFACE" /\ exists hv, ats = [AFloatDiv100 hv])
  \/ (t = "POINT" /\ Forall (fun d => exists u, d = AStr u /\ mem u DOF_VALUES = true) ats).
Proof.
  unfold parse_layer_name.
  destruct (String.eqb_spec t "LINE") as [->|_].
  { destruct (findall "B" nm) as [|bv ?], (findall "H" nm) as [|hv ?];
      intros H Hne; inversion H; subst; try congruence. left. eauto. }
  destruct (String.eqb_spec t "3DFACE") as [->|_].
  { destruct (findall "H" nm) as [|hv ?]; intros H Hne; inversion H; subst; try congruence.
    right; left. eauto. }
  destruct (String.eqb_spec t "POINT") as [->|_]; [|discriminate].
  destruct (length (Py.split nm "DOF ") <? 2)%nat; [intros H Hne; inversion H; subst; congruence|].
  destruct (negb _); [intros H Hne; inversion H; subst; congruence|].
  intros H _. inversion H; subst. right; right. split; [reflexivity|].
  apply Forall_map. eapply Forall_impl; [|exact (kept_dofs_known (nth 1 (Py.split nm "DOF ") EmptyString))].
  intros u Hu. exists u. split; [reflexivity | exact Hu].
Qed.

Lemma layer_append_ok (t : string) (e : entity) (L L' : Layer) :
  ((t = "POINT" /\ exists p, e = EPoint p) \/ (t = "LINE" /\ exists l, e = ELine l)
   \/ (t = "3DFACE" /\ exists f, e = EFace f) \/ (t = "LWPOLYLINE" /\ exists l, e = EPoly l)) ->
  type L = t -> attrs_shape L ->
  (holds_own_kind L \/ (lines L = [] /\ faces L = [] /\ points L = [] /\ lwpolines L = [])) ->
  layer_append (ENTITY_MAPS t) e L = Some L' ->
  layer_ok L' /\ name L' = name L /\ lid L' = lid L.
Proof.
  intros Hk Ht HA HK Hap.
  destruct Hk as [(-> & p & ->)|[(-> & l & ->)|[(-> & f & ->)|(-> & l & ->)]]];
    cbn in Hap; try discriminate; inversion Hap; subst; clear Hap;
    (split; [split; [|exact HA] | split; reflexivity]);
    unfold holds_own_kind in *; cbn [type lines faces points lwpolines];
    (destruct HK as [[(H1&H2&H3&H4&H5)|[(H1&H2&H3&H4&H5)|(H1&H2&H3&H4&H5)]]|(H2&H3&H4&H5)];
     try (rewrite Ht in H1; discriminate));
    [right; right | right; right | left | left | right; left | right; left];
    repeat split; try assumption;
    intro Hc; apply app_eq_nil in Hc as [_ Hc]; discriminate.
Qed.

Lemma ids_ok_snoc (d : layer_dict) (nm : string) (L : Layer) (c : option Z) (v : Z) :
  ids_ok d c -> v = match c with None => 1%Z | Some n => (n + 1)%Z end -> lid L = v ->
  ids_ok (app d [(nm, L)]) (Some v).
Proof.
  intros [Hs Hb] Hv Hl. destruct c as [n|].
  - split.
    + rewrite map_app. apply StronglySorted_snoc; [exact Hs|]. rewrite Forall_map.
      eapply Forall_impl; [|exact Hb]. intros kv H. simpl in *. lia.
    + apply Forall_app. split.
      * eapply Forall_impl; [|exact Hb]. intros kv H. simpl in *. lia.
      * constructor; [simpl; lia | constructor].
  - destruct d as [|kv d]; [|inversion Hb; contradiction].
    split; [repeat constructor | constructor; [simpl; lia | constructor]].
Qed.

Lemma dict_ok_snoc (d : layer_dict) (nm : string) (L : Layer) :
  dict_ok d -> dict_get nm d = None -> name L = nm -> layer_ok L -> dict_ok (app d [(nm, L)]).
Proof.
  intros [Hnd Hf] Hg Hn HL. split.
  - rewrite map_app. apply NoDup_app; [exact Hnd | repeat constructor; auto |].
    intros k Hk [<-|[]]. exact (dict_get_none_notin _ _ Hg Hk).
  - apply Forall_app. split; [exact Hf | constructor; [split; assumption | constructor]].
Qed.

Lemma attrs_shape_new (t nm lname : string) (ats : list attr) (v : Z) :
  parse_layer_name t nm = Some ats -> ats <> [] ->
  attrs_shape (mkLayer lname v t ats [] [] [] []).
Proof.
  intros H Hne. unfold attrs_shape; cbn [type attrs].
  destruct (parse_layer_name_shape _ _ _ H Hne) as [(-> & Hs)|[(-> & Hs)|(-> & Hs)]];
    (split; [|split]); intro Ht; try discriminate; auto.
Qed.

Lemma dict_inv_step (d : layer_dict) (s s' : St) (c : ctl) (d' : layer_dict) :
  parse_entities_step d s = Ok ((c, d'), s') -> dict_inv d s -> dict_inv d' s'.
Proof.
  unfold parse_entities_step. unfold bind at 1.
  destruct (read_code_value "  0" s) as [[et s1]|err] eqn:E1; [|discriminate].
  pose proof (read_code_value_seq_layers _ _ _ _ E1) as Hs1.
  intros H Hinv.
  assert (Hkeep : dict_inv d s1) by (unfold dict_inv in *; now rewrite Hs1).
  clear Hinv. revert H.
  destruct (String.eqb et "ENDSEC" || String.eqb et "ENDOFFILE").
  { intro H; inversion H; subst; exact Hkeep. }
  destruct (Py.isnumeric et).
  { intro H; inversion H; subst; exact Hkeep. }
  destruct (ENTITY_PARSERS et) as [parser|] eqn:Ep.
  2: { intro H; inversion H; subst; exact Hkeep. }
  unfold bind at 1. destruct (read_code_value "  8" s1) as [[nm s2]|err] eqn:E2; [|discriminate].
  pose proof (read_code_value_seq_layers _ _ _ _ E2) as Hs2.
  destruct Hkeep as [[Hnd Hf] [Hss Hb]]. rewrite <- Hs2 in Hb.
  destruct (dict_get nm d) as [L|] eqn:Eg.
  - destruct (String.eqb_spec (type L) et) as [Ht|Hne]; cbn [negb].
    + unfold parse_and_append, bind.
      destruct (parser s2) as [[e s3]|err] eqn:Epa; [|discriminate].
      destruct (layer_append (ENTITY_MAPS et) e L) as [L'|] eqn:Ea; [|discriminate].
      intro H. inversion H; subst; clear H.
      pose proof (entity_parser_seq_layers _ _ _ _ _ Ep Epa) as Hs3.
      apply dict_get_in in Eg as Hin.
      pose proof (proj1 (Forall_forall _ _) Hf _ Hin) as [Hn [HK HA]]. simpl in Hn, HK, HA.
      pose proof (proj1 (Forall_forall _ _) Hb _ Hin) as Hbl. simpl in Hbl.
      destruct (layer_append_ok _ _ _ _ (entity_parser_kind _ _ _ _ _ Ep Epa) eq_refl HA
                  (or_introl HK) Ea) as (HL' & Hn' & Hl').
      unfold dict_inv. rewrite Hs3. split; split.
      * rewrite (dict_set_keys _ _ _ _ Eg). exact Hnd.
      * apply Forall_dict_set; [exact Hf|]. simpl. split; [congruence | exact HL'].
      * rewrite (dict_set_lids _ _ _ _ Eg Hl'). exact Hss.
      * apply Forall_dict_set; [exact Hb|]. simpl. rewrite Hl'. exact Hbl.
    + unfold bind. destruct (remove_invalid_layer nm d s2) as [[d3 s3]|err] eqn:Er; [|discriminate].
      intro H. inversion H; subst. apply remove_invalid_layer_facts in Er as (-> & _ & _ & Hl).
      unfold dict_inv. rewrite Hl. apply dict_inv_pop; split; assumption.
  - destruct (attrs_falsy (parse_layer_name et nm)) eqn:Ea.
    { intro H; inversion H; subst. split; split; assumption. }
    destruct (parse_layer_name et nm) as [[|a0 ats]|] eqn:Epn; try discriminate.
    unfold bind at 1, next_layer_id.
    set (v := match seq_layers s2 with None => 1%Z | Some n => (n + 1)%Z end).
    unfold parse_and_append, bind.
    destruct (parser _) as [[e s4]|err] eqn:Epa; [|discriminate].
    destruct (layer_append (ENTITY_MAPS et) e _) as [L'|] eqn:Ea'; [|discriminate].
    intro H. inversion H; subst; clear H.
    pose proof (entity_parser_seq_layers _ _ _ _ _ Ep Epa) as Hs4. simpl in Hs4.
    destruct (layer_append_ok _ _ (mkLayer nm v et (a0 :: ats) [] [] [] []) _
                (entity_parser_kind _ _ _ _ _ Ep Epa) eq_refl
                (attrs_shape_new _ _ nm _ v Epn ltac:(discriminate))
                (or_intror (conj eq_refl (conj eq_refl (conj eq_refl eq_refl)))) Ea')
      as (HL' & Hn' & Hl').
    simpl in Hn', Hl'.
    rewrite dict_set_twice, dict_set_new by exact Eg.
    unfold dict_inv. rewrite Hs4. split.
    + apply dict_ok_snoc; [split; assumption | exact Eg | exact Hn' | exact HL'].
    + apply (ids_ok_snoc _ _ _ (seq_layers s2)); [split; assumption | reflexivity | exact Hl'].
Qed.

Lemma dict_inv_loop (fuel : nat) :
  forall d s d' s', parse_entities_loop fuel d s = Ok (d', s') -> dict_inv d s -> dict_inv d' s'.
Proof.
  induction fuel as [|fuel IH]; intros d s d' s' H Hi; simpl in H.
  - inversion H; subst; exact Hi.
  - unfold bind in H.
    destruct (parse_entities_step d s) as [[[c d1] s1]|err] eqn:E; [|discriminate].
    pose proof (dict_inv_step _ _ _ _ _ E Hi) as H1.
    destruct c; [eapply IH; eauto | inversion H; subst; exact H1].
Qed.

Lemma dict_inv_parse_entities (s s' : St) (layers : list Layer) :
  parse_entities s = Ok (layers, s') ->
  exists d, layers = dict_values d /\ dict_inv d s'.
Proof.
  unfold parse_entities, bind.
  destruct (parse_entities_loop _ [] s) as [[d s1]|err] eqn:E; [|discriminate].
  intro H. inversion H; subst. exists d. split; [reflexivity|].
  eapply dict_inv_loop; [exact E|]. split; split; constructor.
Qed.

(** ** The LIRA exporter on well-formed layers *)

Lemma dofs_codes_none (ats : list attr) :
  Exporter.dofs_codes ats = None <-> Exists (fun d => Exporter.DOF_MAP_get d = None) ats.
Proof.
  induction ats as [|d r IH]; cbn [Exporter.dofs_codes].
  - split; [discriminate | intro H; inversion H].
  - rewrite Exists_cons. destruct (Exporter.DOF_MAP_get d) as [c|].
    + destruct (Exporter.dofs_codes r); rewrite <- IH; split; intro H;
        try discriminate; try tauto; destruct H; discriminate.
    + tauto.
Qed.

Lemma dof_lines_none (ats : list attr) (pts : list Point) (acc : list string) :
  Exporter.dof_lines ats pts acc = None <-> pts <> [] /\ Exporter.dofs_codes ats = None.
Proof.
  revert acc; induction pts as [|p r IH]; intro acc; cbn [Exporter.dof_lines].
  - split; [discriminate | intros [H _]; now contradiction H].
  - unfold Exporter.dofs_str. destruct (Exporter.dofs_codes ats).
    + rewrite IH. split; intros [_ H]; discriminate.
    + split; [intros _; split; [discriminate | reflexivity] | reflexivity].
Qed.

Lemma dofs_loop_none (Ls : list Layer) (out : list string) :
  Exporter.dofs_loop Ls out = None <->
  Exists (fun L => points L <> [] /\ Exporter.dofs_codes (attrs L) = None) Ls.
Proof.
  revert out; induction Ls as [|L r IH]; intro out; cbn [Exporter.dofs_loop].
  - split; [discriminate | intro H; inversion H].
  - rewrite Exists_cons. destruct (points L) as [|p ps] eqn:Ep; cbn [length Nat.ltb Nat.leb negb].
    + rewrite IH. split; [tauto|]. intros [[H _]|H]; [congruence | exact H].
    + destruct (Exporter.dof_lines (attrs L) (p :: ps) []) as [ls|] eqn:Ed.
      * rewrite IH. split; [tauto|]. intros [[_ H]|H]; [|exact H].
        assert (Hn : Exporter.dof_lines (attrs L) (p :: ps) [] = None)
          by (apply dof_lines_none; split; [discriminate | exact H]).
        congruence.
      * apply dof_lines_none in Ed. split; [intros _; left; exact Ed | reflexivity].
Qed.

Lemma dofs_codes_known (ats : list attr) :
  Forall (fun d => exists t, d = AStr t /\ mem t DOF_VALUES = true) ats ->
  Exporter.dofs_codes ats <> None.
Proof.
  intros H Hn. apply dofs_codes_none in Hn. rewrite Exists_exists in Hn.
  destruct Hn as [d [Hin Hd]]. rewrite Forall_forall in H.
  destruct (H d Hin) as [t [-> Ht]].
  destruct (mem_DOF_VALUES t Ht) as [-> | [-> | [-> | [-> | [-> | ->]]]]]; discriminate.
Qed.

Lemma dofs_codes_map (ats : list attr) :
  Exporter.dofs_codes ats <> None ->
  Exporter.dofs_codes ats =
  Some (map (fun d => match Exporter.DOF_MAP_get d with Some c => Py.str_int c | None => EmptyString end) ats).
Proof.
  induction ats as [|d r IH]; cbn [Exporter.dofs_codes map]; [reflexivity|].
  destruct (Exporter.DOF_MAP_get d); [|congruence].
  destruct (Exporter.dofs_codes r); [|congruence]. intros _.
  specialize (IH ltac:(discriminate)). injection IH as ->. reflexivity.
Qed.

Lemma dof_lines_some (ats : list attr) (ds : string) (pts : list Point) (acc : list string) :
  Exporter.dofs_str ats = Some ds ->
  Exporter.dof_lines ats pts acc =
  Some (acc ++ map (fun p => Py.str_int (id p) ++ " " ++ ds ++ "/" ++ Py.nl)%string pts)%list.
Proof.
  intro H. revert acc; induction pts as [|p r IH]; intro acc; cbn [Exporter.dof_lines map].
  - now rewrite app_nil_r.
  - rewrite H, IH, <- app_assoc. reflexivity.
Qed.

Lemma dofs_loop_ok (Ls : list Layer) (out : list string) :
  Forall layer_ok Ls ->
  Exporter.dofs_loop Ls out =
  Some (out ++ concat (map (fun L =>
          map (fun p => Py.str_int (id p) ++ " "
                 ++ String.concat " " (map (fun d => match Exporter.DOF_MAP_get d with
                                                    | Some c => Py.str_int c
                                                    | None => EmptyString end) (attrs L))
                 ++ "/" ++ Py.nl)%string (points L))
        (filter (fun L => String.eqb (type L) "POINT") Ls)))%list.
Proof.
  revert out; induction Ls as [|L r IH]; intros out HF; cbn [Exporter.dofs_loop filter map concat].
  - now rewrite app_nil_r.
  - inversion HF as [|? ? [HK [_ [_ HA3]]] Hr]; subst.
    destruct HK as [(Ht & _ & _ & Hp & _)|[(Ht & _ & _ & Hp & _)|(Ht & _ & _ & Hp & _)]].
    + assert (E1 : String.eqb (type L) "POINT" = false) by (rewrite Ht; reflexivity).
      rewrite E1, Hp. cbn [length Nat.ltb Nat.leb negb]. exact (IH out Hr).
    + assert (E1 : String.eqb (type L) "POINT" = false) by (rewrite Ht; reflexivity).
      rewrite E1, Hp. cbn [length Nat.ltb Nat.leb negb]. exact (IH out Hr).
    + assert (E1 : String.eqb (type L) "POINT" = true) by (rewrite Ht; reflexivity).
      rewrite E1. cbn [map concat].
      pose proof (dofs_codes_map _ (dofs_codes_known _ (proj2 (HA3 Ht)))) as Hc.
      assert (Hs : Exporter.dofs_str (attrs L) =
                   Some (String.concat " " (map (fun d => match Exporter.DOF_MAP_get d with
                                                    | Some c => Py.str_int c
                                                    | None => EmptyString end) (attrs L))))
        by (unfold Exporter.dofs_str; rewrite Hc; reflexivity).
      destruct (points L) as [|p ps] eqn:Ep; [congruence|]. cbn [length Nat.ltb Nat.leb negb].
      rewrite (dof_lines_some _ _ _ _ Hs). cbn [app].
      rewrite IH by exact Hr. rewrite <- !app_assoc. reflexivity.
Qed.

Section ExpProofs.

Variable fs : Z -> string.
Variable fd : Z -> string.

Lemma layers_loop_ok (Ls : list Layer) (acc : list string) :
  Forall layer_ok Ls ->
  Exporter.layers_loop fs fd Ls acc =
  (acc ++ map (fun L =>
     let at' := String.concat " " (map (Exporter.str_attr fs fd) (attrs L)) in
     if String.eqb (type L) "3DFACE"
     then (Py.str_int (lid L) ++ " 3.06E6 0.2 " ++ at' ++ "/" ++ Py.nl)%string
     else (Py.str_int (lid L) ++ " S0 3.06E6 " ++ at' ++ "/" ++ Py.nl)%string)
    (filter (fun L => negb (String.eqb (type L) "POINT")) Ls))%list.
Proof.
  revert acc; induction Ls as [|L r IH]; intros acc HF; cbn [Exporter.layers_loop filter map].
  - now rewrite app_nil_r.
  - inversion HF as [|? ? [HK [HA1 [HA2 HA3]]] Hr]; subst.
    destruct HK as [(Ht & _ & _ & Hp & _)|[(Ht & _ & _ & Hp & _)|(Ht & _ & _ & Hp & _)]].
    + assert (E1 : String.eqb (type L) "POINT" = false) by (rewrite Ht; reflexivity).
      assert (E2 : String.eqb (type L) "3DFACE" = false) by (rewrite Ht; reflexivity).
      destruct (HA1 Ht) as (bv & hv & Ha).
      rewrite E1, Hp. cbn [negb length Nat.ltb Nat.leb map]. rewrite E2, Ha.
      cbn [length Nat.eqb]. rewrite IH by exact Hr. rewrite <- app_assoc. reflexivity.
    + assert (E1 : String.eqb (type L) "POINT" = false) by (rewrite Ht; reflexivity).
      assert (E2 : String.eqb (type L) "3DFACE" = true) by (rewrite Ht; reflexivity).
      destruct (HA2 Ht) as (hv & Ha).
      rewrite E1, Hp. cbn [negb length Nat.ltb Nat.leb map]. rewrite E2, Ha.
      cbn [length Nat.eqb]. rewrite IH by exact Hr. rewrite <- app_assoc. reflexivity.
    + assert (E1 : String.eqb (type L) "POINT" = true) by (rewrite Ht; reflexivity).
      rewrite E1. cbn [negb].
      destruct (points L) as [|p ps]; [congruence|]. cbn [length Nat.ltb Nat.leb].
      exact (IH acc Hr).
Qed.

Lemma write_to_lira_file_none (Ls : list Layer) (pts : list Point) :
  Exporter.write_to_lira_file fs fd Ls pts = None <->
  Exists (fun L => points L <> [] /\ Exporter.dofs_codes (attrs L) = None) Ls.
Proof.
  unfold Exporter.write_to_lira_file.
  match goal with |- context [Exporter.dofs_loop Ls ?o] => rewrite <- (dofs_loop_none Ls o);
    destruct (Exporter.dofs_loop Ls o) end; split; congruence.
Qed.

Lemma write_to_lira_file_layers_ok (Ls : list Layer) (pts : list Point) :
  Forall layer_ok Ls -> Exporter.write_to_lira_file fs fd Ls pts <> None.
Proof.
  intros HF Hn. apply write_to_lira_file_none in Hn. rewrite Exists_exists in Hn.
  destruct Hn as [L [Hin [Hp Hc]]]. rewrite Forall_forall in HF.
  destruct (HF L Hin) as [HK [_ [_ HA3]]].
  destruct HK as [(_ & _ & _ & H & _)|[(_ & _ & _ & H & _)|(Ht & _)]]; [congruence|congruence|].
  exact (dofs_codes_known _ (proj2 (HA3 Ht)) Hc).
Qed.

End ExpProofs.

Lemma parse_entities_inv (s s' : St) (Ls : list Layer) :
  parse_entities s = Ok (Ls, s') ->
  NoDup (map name Ls) /\ Forall layer_ok Ls /\ StronglySorted Z.lt (map lid Ls)
  /\ Forall (fun L => match seq_layers s' with None => False | Some n => (lid L <= n)%Z end) Ls.
Proof.
  intro H. destruct (dict_inv_parse_entities _ _ _ H) as (d & -> & [Hnd Hf] & [Hss Hb]).
  unfold dict_values. rewrite !map_map, !Forall_map.
  assert (Hn : map (fun kv => name (snd kv)) d = map fst d).
  { apply map_ext_in. intros kv Hin. rewrite Forall_forall in Hf. apply (Hf kv Hin). }
  rewrite Hn. split; [exact Hnd|]. split; [|split; [exact Hss | exact Hb]].
  eapply Forall_impl; [|exact Hf]. intros kv [_ H']. exact H'.
Qed.

Lemma parse_dxf_loop_inv (fuel : nat) :
  forall Ls s Ls' s', parse_dxf_loop fuel Ls s = Ok (Ls', s') ->
  NoDup (map name Ls) /\ Forall layer_ok Ls -> NoDup (map name Ls') /\ Forall layer_ok Ls'.
Proof.
  induction fuel as [|fuel IH]; intros Ls s Ls' s' H Hi; cbn [parse_dxf_loop] in H.
  - inversion H; subst; exact Hi.
  - unfold bind at 1 in H. destruct (read_code_value "  2" s) as [[sec s1]|e]; [|discriminate].
    destruct (String.eqb sec "ENDOFFILE"); [inversion H; subst; exact Hi|].
    destruct (String.eqb sec "ENTITIES"); [|exact (IH _ _ _ _ H Hi)].
    unfold bind in H. destruct (parse_entities s1) as [[L1 s2]|e] eqn:E; [|discriminate].
    apply (IH _ _ _ _ H). destruct (parse_entities_inv _ _ _ E) as (H1 & H2 & _). tauto.
Qed.

Lemma points_extend_point_factory (s0 : St) (vx vy vz : string) :
  preserves (fun st => exists new, POINTS st = (POINTS s0 ++ new)%list) (point_factory vx vy vz).
Proof.
  intros s p s' H [nw Hn]. unfold point_factory in H.
  destruct (lookup_key _ (POINTS s)); inversion H; subst; [now exists nw|].
  cbn [POINTS]. exists (nw ++ [(strip_tollerence vx, strip_tollerence vy, strip_tollerence vz,
                             mkPoint vx vy vz (match seq_points s with None => 1%Z | Some n => (n + 1)%Z end))])%list.
  rewrite Hn, app_assoc. reflexivity.
Qed.

(** Well-formedness of concrete layers. *)
Ltac solve_layer_ok :=
  unfold layer_ok, holds_own_kind, attrs_shape;
  cbn [Samples.line_layer Samples.face_layer Samples.point_layer type lines faces points lwpolines attrs];
  split;
  [ first [ left; repeat split; (reflexivity || discriminate)
          | right; left; repeat split; (reflexivity || discriminate)
          | right; right; repeat split; (reflexivity || discriminate) ]
  | split; [|split];
    first [ intro Ht; discriminate
          | intros _; eexists; eexists; reflexivity
          | intros _; eexists; reflexivity
          | intros _; split; [discriminate|];
            repeat (apply Forall_cons; [eexists; split; reflexivity|]); apply Forall_nil ] ].

(* ================================================================== *)
(** ** Order of [unique_points] *)

Lemma existsb_Zeqb_iff (z : Z) (l : list Point) (ids : list Z) :
  (forall i, In i ids <-> In i (map id l)) ->
  existsb (fun q => Z.eqb (id q) z) l = existsb (Z.eqb z) ids.
Proof.
  intro H. apply Bool.eq_true_iff_eq. rewrite existsb_Zeqb, H, existsb_exists, in_map_iff.
  split.
  - intros (q & Hq & E). apply Z.eqb_eq in E. now exists q.
  - intros (q & E & Hq). exists q. split; [exact Hq | now apply Z.eqb_eq].
Qed.

Lemma unique_points_go_first (l : list Point) :
  forall prev acc ids,
  (forall i, In i ids <-> In i (map id prev)) ->
  unique_points_go l acc ids
  = (acc ++ map fst (filter (fun pi => negb (existsb (fun q => Z.eqb (id q) (id (fst pi)))
                                                    (firstn (snd pi) (prev ++ l))))
                           (combine l (seq (length prev) (length l)))))%list.
Proof.
  induction l as [|x r IH]; intros prev acc ids Hids; simpl; [now rewrite app_nil_r|].
  replace (firstn (length prev) (prev ++ x :: r)) with prev
    by (rewrite firstn_app, Nat.sub_diag, firstn_all; simpl; now rewrite app_nil_r).
  rewrite (existsb_Zeqb_iff (id x) prev ids Hids).
  replace (prev ++ x :: r)%list with ((prev ++ [x]) ++ r)%list by now rewrite <- app_assoc.
  replace (S (length prev)) with (length (prev ++ [x])) by (rewrite length_app; simpl; lia).
  destruct (existsb (Z.eqb (id x)) ids) eqn:E; simpl.
  - apply IH. intro i. rewrite Hids, map_app, in_app_iff. simpl.
    apply existsb_Zeqb, Hids in E. split; [tauto|]. intros [?|[<-|[]]]; auto.
  - rewrite (IH (prev ++ [x])%list (acc ++ [x])%list (id x :: ids)), <- app_assoc; [reflexivity|].
    intro i. rewrite map_app, in_app_iff. simpl. rewrite Hids. tauto.
Qed.

Lemma unique_points_first_occurrences (pts : list Point) :
  unique_points pts = first_occurrences pts.
Proof.
  unfold unique_points, first_occurrences.
  exact (unique_points_go_first pts [] [] [] (fun i => iff_refl _)).
Qed.

(** ** Rollback of an invalidated layer *)


(** ** The DOF segment of a POINT layer name *)

Lemma prefix_app_true (p x y : string) :
  String.prefix p x = true -> String.prefix p (x ++ y) = true.
Proof.
  revert x. induction p as [|c p IH]; intros x H; [now destruct (x ++ y)|].
  destruct x as [|d x]; [discriminate|]. simpl in *.
  destruct (ascii_dec c d); [apply IH, H | discriminate].
Qed.

Lemma prefix_true_app (p s : string) :
  String.prefix p s = true -> exists rest, s = p ++ rest.
Proof.
  revert s. induction p as [|c p IH]; intros s H; [now exists s|].
  destruct s as [|d s]; [discriminate|]. simpl in H.
  destruct (ascii_dec c d) as [<-|]; [|discriminate].
  destruct (IH s H) as (rest & ->). now exists rest.
Qed.

Lemma occurs_first (p s : string) :
  p <> EmptyString -> occurs p s = true ->
  exists pre rest, s = pre ++ p ++ rest /\ occurs p pre = false.
Proof.
  intro Hp. assert (H0 : occurs p EmptyString = false)
    by (destruct p; [contradiction | reflexivity]).
  induction s as [|c s IH]; intro H; [congruence|].
  change (String.prefix p (String c s) || occurs p s = true) in H.
  destruct (String.prefix p (String c s)) eqn:E.
  - destruct (prefix_true_app _ _ E) as (rest & Hr). now exists EmptyString, rest.
  - destruct (IH H) as (pre & rest & -> & Hpre). exists (String c pre), rest. split; [reflexivity|].
    change (String.prefix p (String c pre) || occurs p pre = false).
    rewrite Hpre, orb_false_r. destruct (String.prefix p (String c pre)) eqn:E'; [|reflexivity].
    apply (prefix_app_true _ _ (p ++ rest)) in E'.
    change (String.prefix p (String c (pre ++ p ++ rest)) = true) in E'. congruence.
Qed.

(** The first segment after the first marker: every name containing
    "DOF " is [pre ++ "DOF " ++ t], possibly followed by a further marker,
    with no marker in [pre] or [t]. *)
Lemma DOF_segments (layer_name : string) :
  occurs "DOF " layer_name = true ->
  exists pre t, occurs "DOF " pre = false /\ occurs "DOF " t = false
    /\ (layer_name = pre ++ "DOF " ++ t \/ exists u, layer_name = pre ++ "DOF " ++ t ++ "DOF " ++ u).
Proof.
  intro H. destruct (occurs_first "DOF " layer_name ltac:(discriminate) H) as (pre & rest & -> & Hp).
  exists pre. destruct (occurs "DOF " rest) eqn:Er.
  - destruct (occurs_first "DOF " rest ltac:(discriminate) Er) as (t & u & -> & Ht).
    exists t. repeat split; auto. right. now exists u.
  - exists rest. repeat split; auto.
Qed.

Lemma parse_layer_name_point_split (layer_name pre t : string) (rest : list string) :
  Py.split layer_name "DOF " = pre :: t :: rest ->
  parse_layer_name "POINT" layer_name
  = if negb (sorted_le (map (fun d => Py.str_int (DOF_MAP d)) (kept_dofs t)))
    then Some [] else Some (map AStr (kept_dofs t)).
Proof. intro H. unfold parse_layer_name. rewrite H. reflexivity. Qed.

Lemma parse_layer_name_point_first (pre t sfx : string) :
  occurs "DOF " pre = false -> occurs "DOF " t = false ->
  (sfx = EmptyString \/ exists u, sfx = "DOF " ++ u) ->
  parse_layer_name "POINT" (pre ++ "DOF " ++ t ++ sfx)
  = if sorted_codes (map DOF_MAP (kept_dofs t))
    then Some (map AStr (kept_dofs t)) else Some [].
Proof.
  intros Hp Ht Hs.
  assert (Hsplit : exists rest, Py.split (pre ++ "DOF " ++ t ++ sfx) "DOF " = pre :: t :: rest).
  { destruct Hs as [->|(u & ->)].
    - exists []. rewrite str_app_nil_r. now apply split_DOF_two.
    - exists (Py.split_go "DOF " u 0 EmptyString). unfold Py.split.
      rewrite split_DOF_marker by exact Hp. rewrite split_DOF_marker by exact Ht. reflexivity. }
  destruct Hsplit as (rest & Hsplit).
  rewrite (parse_layer_name_point_split _ _ _ _ Hsplit).
  rewrite sorted_le_codes by apply kept_dofs_known.
  destruct (sorted_codes (map DOF_MAP (kept_dofs t))); reflexivity.
Qed.

Lemma kept_dofs_single (q : string) :
  no_char " " q = true -> mem (Py.strip (Py.lower q)) DOF_VALUES = false -> kept_dofs q = [].
Proof.
  intros Hq Hm. unfold kept_dofs, Py.split.
  change " " with (String " " EmptyString).
  rewrite split_go_single_none by (apply no_char_lower; exact Hq).
  cbn [append filter]. rewrite Hm. reflexivity.
Qed.

Lemma kept_dofs_drop_first (q b : string) :
  no_char " " q = true -> mem (Py.strip (Py.lower q)) DOF_VALUES = false ->
  kept_dofs (q ++ " " ++ b) = kept_dofs b.
Proof.
  intros Hq Hm. unfold kept_dofs. rewrite !lower_app. change (Py.lower " ") with " ".
  rewrite split_space_two, filter_app, map_app.
  fold (kept_dofs q). rewrite kept_dofs_single by assumption. reflexivity.
Qed.

Lemma kept_dofs_drop_last (a q : string) :
  no_char " " q = true -> mem (Py.strip (Py.lower q)) DOF_VALUES = false ->
  kept_dofs (a ++ " " ++ q) = kept_dofs a.
Proof.
  intros Hq Hm. unfold kept_dofs. rewrite !lower_app. change (Py.lower " ") with " ".
  rewrite split_space_two, filter_app, map_app.
  fold (kept_dofs q). rewrite kept_dofs_single by assumption. now rewrite app_nil_r.
Qed.

Lemma kept_dofs_drop_middle (a q b : string) :
  no_char " " q = true -> mem (Py.strip (Py.lower q)) DOF_VALUES = false ->
  kept_dofs (a ++ " " ++ q ++ " " ++ b) = kept_dofs (a ++ " " ++ b).
Proof.
  intros Hq Hm. unfold kept_dofs. rewrite !lower_app.
  change (Py.lower " ") with " ".
  rewrite split_space_token by (apply no_char_lower; exact Hq).
  rewrite split_space_two, !filter_app. cbn [filter app]. rewrite Hm. reflexivity.
Qed.

Lemma kept_dofs_empty : kept_dofs EmptyString = [].
Proof. reflexivity. Qed.

(** * Claims *)

(** C1: two coordinate triples whose truncated strings agree get the very
    same stored [Point] from [point_factory], whatever other points are
    created in between: same id, and the coordinates of the first triple
    when it was the first with that key.  The truncation keeps at most 3
    characters after the single dot, by slicing ([1.2399] gives [1.239]). *)
Theorem point_factory_canonical
    (vx vy vz vx' vy' vz' : string) (ts : list (string * string * string))
    (s s1 s2 s3 : St) (p q : Point) (ps : list Point) :
  strip_tollerence vx = strip_tollerence vx' ->
  strip_tollerence vy = strip_tollerence vy' ->
  strip_tollerence vz = strip_tollerence vz' ->
  point_factory vx vy vz s = Ok (p, s1) ->
  point_factory_many ts s1 = Ok (ps, s2) ->
  point_factory vx' vy' vz' s2 = Ok (q, s3) ->
  q = p /\ id q = id p /\ s3 = s2
  /\ (lookup_key (strip_tollerence vx, strip_tollerence vy, strip_tollerence vz) (POINTS s) = None ->
      x q = vx /\ y q = vy /\ z q = vz)
  /\ (forall i f, no_char "." i = true -> no_char "." f = true ->
      strip_tollerence (i ++ "." ++ f) = i ++ "." ++ substring 0 3 f)
  /\ strip_tollerence "1.2399" = "1.239".
Proof.
  intros Ex Ey Ez H1 H2 H3.
  destruct (point_factory_spec vx vy vz s) as (p0 & s1' & E & Hin & Hnew & _).
  rewrite E in H1. inversion H1; subst p0 s1'. clear H1.
  pose proof (point_factory_many_keeps ts s1 ps s2 H2 _ _ Hin) as Hin2.
  unfold point_factory in H3. rewrite <- Ex, <- Ey, <- Ez, Hin2 in H3.
  inversion H3; subst q s3.
  split; [reflexivity|]. split; [reflexivity|]. split; [reflexivity|].
  split; [exact Hnew|]. split; [exact strip_tollerence_dot | reflexivity].
Qed.

Lemma point_factory_canonical_witness :
  let p := mkPoint "1.2399" "2" "3" 1 in
  let s1 := mkSt [] [(("1.239", "2", "3"), p)] (Some 1%Z) None in
  let s2 := mkSt [] [(("1.239", "2", "3"), p); (("5", "6", "7"), mkPoint "5" "6" "7" 2)]
                 (Some 2%Z) None in
  point_factory "1.2391" "2" "3" s2 = Ok (p, s2) /\ x p = "1.2399" /\ id p = 1%Z.
Proof.
  intros p s1 s2.
  destruct (point_factory_canonical "1.2399" "2" "3" "1.2391" "2" "3" [("5", "6", "7")]
              (initial_state []) s1 s2 s2 p p [mkPoint "5" "6" "7" 2])
    as (Hq & Hid & _ & Hx & _); try reflexivity.
  split; [reflexivity|]. split; [apply Hx; reflexivity | reflexivity].
Defined.




(** C3 (code bug): the code means to keep polylines ([ENTITY_PARSERS]
    has [parse_LWPOLYLINE], [ENTITY_MAPS] maps LWPOLYLINE to a field, and
    [Layer] has a polyline field), but [parse_layer_name] has no
    LWPOLYLINE branch and returns [None], which [parse_entities] treats as
    an invalid layer name.  An LWPOLYLINE on a name that is not yet a layer
    is skipped: no layer is created, nothing is parsed or stored, the
    state only advances past the layer name; the result of
    [parse_entities] never holds an LWPOLYLINE layer.  Were the name
    accepted, the append would still fail: [ENTITY_MAPS] names the field
    "lwpolylines" while [Layer] spells it "lwpolines" ([AttributeError]). *)
Theorem lwpolyline_layer_never_created (layer_name : string) :
  parse_layer_name "LWPOLYLINE" layer_name = None
  /\ (forall layers s s1 s2,
        read_code_value "  0" s = Ok ("LWPOLYLINE", s1) ->
        read_code_value "  8" s1 = Ok (layer_name, s2) ->
        dict_get layer_name layers = None ->
        parse_entities_step layers s = Ok ((Continue, layers), s2))
  /\ (forall s result s', parse_entities s = Ok (result, s') ->
        Forall (fun l => type l <> "LWPOLYLINE") result)
  /\ (forall pl L, layer_append (ENTITY_MAPS "LWPOLYLINE") (EPoly pl) L = None).
Proof.
  split; [reflexivity|]. split; [|split; [|intros; reflexivity]].
  - intros layers s s1 s2 H1 H2 Hg.
    unfold parse_entities_step. unfold bind at 1. rewrite H1.
    cbn -[read_code_value parse_layer_name]. change (Py.is_digit "L") with false. cbn [andb].
    unfold bind at 1. rewrite H2.
    rewrite Hg, parse_layer_name_lw. reflexivity.
  - intros s result s' H. unfold parse_entities, bind in H.
    destruct (parse_entities_loop (S (length (stream s))) [] s) as [[l s1]|e] eqn:E;
      [|discriminate].
    inversion H; subst. apply parse_entities_loop_no_lw in E; [|constructor].
    unfold dict_values. apply Forall_map. exact E.
Qed.

Lemma lwpolyline_layer_never_created_witness :
  parse_entities_step [] (initial_state (Samples.lines_of ["  0"; "LWPOLYLINE"; "  8"; "Poly"]))
  = Ok ((Continue, []), initial_state [])
  /\ Forall (fun l => type l <> "LWPOLYLINE") [].
Proof.
  destruct (lwpolyline_layer_never_created "Poly") as (_ & Hstep & Hres & _).
  split.
  - apply (Hstep [] _ (initial_state (Samples.lines_of ["  8"; "Poly"])));
      reflexivity.
  - apply (Hres (initial_state [])  [] (initial_state [])). reflexivity.
Defined.

(** C3, failing input: a stream holding one LWPOLYLINE on layer "Poly"
    parses to no layer at all. *)
Lemma lwpolyline_layer_counterexample :
  match parse_entities (initial_state
          (Samples.lines_of (Samples.entity_lines "LWPOLYLINE" "Poly"
             [" 90"; "1"; "1.0"; " 20"; "2.0"] ++ Samples.endsec))) with
  | Ok (layers, _) => layers = []
  | Err _ => False
  end.
Proof. vm_compute. reflexivity. Qed.

(** C4 (code bug): [parse_LWPOLYLINE] raises instead of returning the
    vertices read so far.  With two vertices declared and one present
    before the end of the stream it raises [TypeError] (the vertex is
    wrapped as [Point(point_factory(...))], a one-argument call of a
    namedtuple needing x, y, z); and a marker line ["  0\n"] is not
    recognised, since it is compared with ["  0"] without its newline, so
    the loop reads it as an x value and runs into the same [TypeError].
    Only an exhausted stream at the start of a vertex ends the loop. *)
Theorem parse_LWPOLYLINE_short_raises :
  parse_LWPOLYLINE (initial_state (Samples.lines_of [" 90"; "2"; "1.0"; " 20"; "2.0"]))
    = Err TypeError
  /\ parse_LWPOLYLINE (initial_state (Samples.lines_of [" 90"; "3"; "  0"; "ENDSEC"]))
    = Err TypeError
  /\ parse_LWPOLYLINE (initial_state (Samples.lines_of [" 90"; "2"; "1.0"; " 20"; "2.0"; "  0"; "LINE"]))
    = Err TypeError
  /\ parse_LWPOLYLINE (initial_state (Samples.lines_of [" 90"; "2"]))
    = Ok (mkLwPolyLine [], initial_state []).
Proof. repeat split; vm_compute; reflexivity. Qed.

(** C5 (as amended): the four corners a, b, c, d decoded in tag order are
    stored as (a, b, d, c), dropping each corner whose id already occurs
    earlier in that sequence; the face keeps as many points as there are
    distinct ids among the corners (3 when exactly three are distinct). *)
Theorem parse_3DFACE_corner_order (s s1 s2 s3 s4 : St) (pa pb pc pd : Point) :
  read_point " 10" " 20" " 30" s = Ok (pa, s1) ->
  read_point " 11" " 21" " 31" s1 = Ok (pb, s2) ->
  read_point " 12" " 22" " 32" s2 = Ok (pc, s3) ->
  read_point " 13" " 23" " 33" s3 = Ok (pd, s4) ->
  parse_3DFACE s = Ok (mkThreeDFace (first_occurrences [pa; pb; pd; pc]), s4)
  /\ length (first_occurrences [pa; pb; pd; pc])
     = length (nodup Z.eq_dec [id pa; id pb; id pd; id pc]).
Proof.
  intros H1 H2 H3 H4. destruct (unique_points_four pa pb pd pc) as [Hu Hl].
  split.
  - unfold parse_3DFACE, bind. rewrite H1, H2, H3, H4. unfold ret. now rewrite Hu.
  - now rewrite <- Hu.
Qed.

Lemma parse_3DFACE_corner_order_witness :
  match parse_3DFACE (initial_state (Samples.lines_of Samples.face_codes_c_is_a)) with
  | Ok (f, _) => map id (face_points f) = [1; 2; 3]%Z /\ length (face_points f) = 3%nat
  | Err _ => False
  end.
Proof.
  destruct (read_point " 10" " 20" " 30" (initial_state (Samples.lines_of Samples.face_codes_c_is_a)))
    as [[pa s1]|e] eqn:E1; [|vm_compute in E1; discriminate].
  destruct (read_point " 11" " 21" " 31" s1) as [[pb s2]|e] eqn:E2.
  2: vm_compute in E1; injection E1 as <- <-; vm_compute in E2; discriminate.
  destruct (read_point " 12" " 22" " 32" s2) as [[pc s3]|e] eqn:E3.
  2: vm_compute in E1; injection E1 as <- <-; vm_compute in E2; injection E2 as <- <-;
     vm_compute in E3; discriminate.
  destruct (read_point " 13" " 23" " 33" s3) as [[pd s4]|e] eqn:E4.
  2: vm_compute in E1; injection E1 as <- <-; vm_compute in E2; injection E2 as <- <-;
     vm_compute in E3; injection E3 as <- <-; vm_compute in E4; discriminate.
  destruct (parse_3DFACE_corner_order _ s1 s2 s3 s4 pa pb pc pd E1 E2 E3 E4) as [H _].
  rewrite H.
  vm_compute in E1; injection E1 as <- <-; vm_compute in E2; injection E2 as <- <-;
    vm_compute in E3; injection E3 as <- <-; vm_compute in E4; injection E4 as <- <-.
  vm_compute. split; reflexivity.
Defined.

(** C5's "in particular" fails: corners a = b = c with d distinct leave a
    face of 2 points, not 3. *)
Lemma parse_3DFACE_three_equal_counterexample :
  match parse_3DFACE (initial_state (Samples.lines_of Samples.face_codes_three_equal)) with
  | Ok (f, _) => length (face_points f) = 2%nat
  | Err _ => False
  end.
Proof. vm_compute. reflexivity. Qed.

(** C6 (as amended): for a POINT layer, a name without "DOF " gives the
    empty (invalid) attribute list.  Every name with the marker is
    [pre ++ "DOF " ++ t], possibly followed by a further "DOF " and more
    text, with no marker in [pre] or [t]; for any such decomposition only
    [t], the text between the first marker and the next one (or the end),
    is used: it is lowercased and split at single spaces, the stripped
    tokens in {x, y, z, fx, fy, fz} are kept and the others dropped, and
    the kept list is returned when its codes (x 1 ... fz 6) never
    decrease, the empty list otherwise; an empty kept list is itself the
    invalid result. *)
Theorem parse_layer_name_point_dofs (layer_name : string) :
  (occurs "DOF " layer_name = false -> parse_layer_name "POINT" layer_name = Some [])
  /\ (occurs "DOF " layer_name = true ->
      exists pre t, occurs "DOF " pre = false /\ occurs "DOF " t = false
        /\ (layer_name = pre ++ "DOF " ++ t
            \/ exists u, layer_name = pre ++ "DOF " ++ t ++ "DOF " ++ u))
  /\ (forall pre t u, occurs "DOF " pre = false -> occurs "DOF " t = false ->
      layer_name = pre ++ "DOF " ++ t \/ layer_name = pre ++ "DOF " ++ t ++ "DOF " ++ u ->
      parse_layer_name "POINT" layer_name
      = if sorted_codes (map DOF_MAP (kept_dofs t))
        then Some (map AStr (kept_dofs t)) else Some []).
Proof.
  split; [apply parse_layer_name_point_no_marker|]. split; [apply DOF_segments|].
  intros pre t u Hp Ht [-> | ->].
  - rewrite <- (str_app_nil_r t) at 1. apply parse_layer_name_point_first; auto.
  - apply parse_layer_name_point_first; eauto.
Qed.

Lemma parse_layer_name_point_dofs_witness :
  parse_layer_name "POINT" "Support DOF x y z" = Some [AStr "x"; AStr "y"; AStr "z"]
  /\ parse_layer_name "POINT" "Support DOF z x" = Some []
  /\ parse_layer_name "POINT" "Support x y" = Some []
  /\ parse_layer_name "POINT" "Support DOF x y DOF z" = Some [AStr "x"; AStr "y"].
Proof.
  destruct (parse_layer_name_point_dofs "Support x y") as (H0 & _).
  destruct (parse_layer_name_point_dofs "Support DOF x y z") as (_ & _ & H1).
  destruct (parse_layer_name_point_dofs "Support DOF z x") as (_ & _ & H2).
  destruct (parse_layer_name_point_dofs "Support DOF x y DOF z") as (_ & _ & H3).
  split; [|split; [|split]].
  - refine (eq_trans (H1 "Support " "x y z" "" eq_refl eq_refl (or_introl eq_refl)) _).
    vm_compute. reflexivity.
  - refine (eq_trans (H2 "Support " "z x" "" eq_refl eq_refl (or_introl eq_refl)) _).
    vm_compute. reflexivity.
  - apply H0. reflexivity.
  - refine (eq_trans (H3 "Support " "x y " "z" eq_refl eq_refl (or_intror eq_refl)) _).
    vm_compute. reflexivity.
Defined.

(** C6 as stated fails: in "Support DOF x q y" the token q is outside
    the DOF set, yet the name is accepted, and with [x; y] rather than the
    token list after the marker. *)
Lemma parse_layer_name_point_counterexample :
  parse_layer_name "POINT" "Support DOF x q y" = Some [AStr "x"; AStr "y"]
  /\ Py.split "x q y" " " = ["x"; "q"; "y"].
Proof. split; reflexivity. Qed.

(** C10: in the text [t] after the "DOF " marker (up to a further marker,
    if any), a space-separated token [q] that is not a DOF token (after
    lowercasing and stripping) is dropped before the order check: wherever
    [q] stands in [t] (between two tokens, first, last, or alone), the name
    parses exactly as if [q] were absent. *)
Theorem parse_layer_name_point_drops_unknown (pre a q b sfx : string) :
  occurs "DOF " pre = false ->
  (sfx = EmptyString \/ exists u, sfx = "DOF " ++ u) ->
  no_char " " q = true ->
  mem (Py.strip (Py.lower q)) DOF_VALUES = false ->
  (occurs "DOF " (a ++ " " ++ q ++ " " ++ b) = false -> occurs "DOF " (a ++ " " ++ b) = false ->
   parse_layer_name "POINT" (pre ++ "DOF " ++ (a ++ " " ++ q ++ " " ++ b) ++ sfx)
   = parse_layer_name "POINT" (pre ++ "DOF " ++ (a ++ " " ++ b) ++ sfx))
  /\ (occurs "DOF " (q ++ " " ++ b) = false -> occurs "DOF " b = false ->
      parse_layer_name "POINT" (pre ++ "DOF " ++ (q ++ " " ++ b) ++ sfx)
      = parse_layer_name "POINT" (pre ++ "DOF " ++ b ++ sfx))
  /\ (occurs "DOF " (a ++ " " ++ q) = false -> occurs "DOF " a = false ->
      parse_layer_name "POINT" (pre ++ "DOF " ++ (a ++ " " ++ q) ++ sfx)
      = parse_layer_name "POINT" (pre ++ "DOF " ++ a ++ sfx))
  /\ (occurs "DOF " q = false ->
      parse_layer_name "POINT" (pre ++ "DOF " ++ q ++ sfx)
      = parse_layer_name "POINT" (pre ++ "DOF " ++ EmptyString ++ sfx)).
Proof.
  intros Hp Hs Hq Hm.
  split; [|split; [|split]]; intros Ht1;
    [intro Ht2 | intro Ht2 | intro Ht2 | pose (Ht2 := eq_refl : occurs "DOF " EmptyString = false)];
    rewrite !parse_layer_name_point_first by assumption.
  - now rewrite kept_dofs_drop_middle by assumption.
  - now rewrite kept_dofs_drop_first by assumption.
  - now rewrite kept_dofs_drop_last by assumption.
  - now rewrite kept_dofs_single, kept_dofs_empty by assumption.
Qed.

Lemma parse_layer_name_point_drops_unknown_witness :
  parse_layer_name "POINT" "Support DOF x q y" = Some [AStr "x"; AStr "y"]
  /\ parse_layer_name "POINT" "Support DOF q y" = Some [AStr "y"]
  /\ parse_layer_name "POINT" "Support DOF x q" = Some [AStr "x"]
  /\ parse_layer_name "POINT" "Support DOF q" = Some []
  /\ parse_layer_name "POINT" "Support DOF y Q z DOF x" = Some [AStr "y"; AStr "z"].
Proof.
  destruct (parse_layer_name_point_drops_unknown "Support " "x" "q" "y" EmptyString
              eq_refl (or_introl eq_refl) eq_refl eq_refl) as (H1 & H2 & H3 & H4).
  destruct (parse_layer_name_point_drops_unknown "Support " "y" "Q" "z" "DOF x"
              eq_refl (or_intror (ex_intro _ "x" eq_refl)) eq_refl eq_refl) as (H5 & _).
  split; [|split; [|split; [|split]]].
  - refine (eq_trans (H1 eq_refl eq_refl) _). vm_compute. reflexivity.
  - refine (eq_trans (H2 eq_refl eq_refl) _). vm_compute. reflexivity.
  - refine (eq_trans (H3 eq_refl eq_refl) _). vm_compute. reflexivity.
  - refine (eq_trans (H4 eq_refl) _). vm_compute. reflexivity.
  - refine (eq_trans (H5 eq_refl eq_refl) _). vm_compute. reflexivity.
Defined.

(** C7: for a LINE layer, [parse_layer_name] returns the pair [B-value,
    H-value] (the numbers after the first [B<digits>] and the first
    [H<digits>] match) exactly when the name contains both a [B] followed
    by a digit and an [H] followed by a digit, and the empty (invalid) list
    otherwise; [parse_entities] then creates no layer and skips the
    entity. *)
Theorem parse_layer_name_line_attrs (layer_name : string) :
  parse_layer_name "LINE" layer_name
  = (if has_letter_digit "B" layer_name && has_letter_digit "H" layer_name
     then Some [AFloat (first_match_value "B" layer_name); AFloat (first_match_value "H" layer_name)]
     else Some [])
  /\ (forall layers s s1 s2,
        read_code_value "  0" s = Ok ("LINE", s1) ->
        read_code_value "  8" s1 = Ok (layer_name, s2) ->
        dict_get layer_name layers = None ->
        has_letter_digit "B" layer_name && has_letter_digit "H" layer_name = false ->
        parse_entities_step layers s = Ok ((Continue, layers), s2)).
Proof.
  split; [apply parse_layer_name_line|].
  intros layers s s1 s2 H1 H2 Hg Hbh.
  unfold parse_entities_step. unfold bind at 1. rewrite H1.
  cbn -[read_code_value parse_layer_name]. change (Py.is_digit "L") with false. cbn [andb].
  unfold bind at 1. rewrite H2.
  rewrite Hg, parse_layer_name_line, Hbh. reflexivity.
Qed.

Lemma parse_layer_name_line_attrs_witness :
  parse_layer_name "LINE" "Beam B30 H50" = Some [AFloat 30; AFloat 50]
  /\ parse_entities_step []
       (initial_state (Samples.lines_of (Samples.entity_lines "LINE" "Beam B30" Samples.line_codes)))
     = Ok ((Continue, []), initial_state (Samples.lines_of Samples.line_codes))
  /\ (match parse_entities (initial_state (Samples.lines_of
            (Samples.entity_lines "LINE" "Beam B30" Samples.line_codes ++ Samples.endsec))) with
      | Ok (layers, _) => layers = []
      | Err _ => False
      end).
Proof.
  destruct (parse_layer_name_line_attrs "Beam B30 H50") as [H1 _].
  destruct (parse_layer_name_line_attrs "Beam B30") as [_ H2].
  split; [|split].
  - rewrite H1. reflexivity.
  - apply (H2 [] _ (initial_state (Samples.lines_of ["  8"; "Beam B30"] ++ Samples.lines_of Samples.line_codes)));
      reflexivity.
  - vm_compute. reflexivity.
Defined.

(** C8: section 1 of the LIRA file, as written after the header, is for
    each layer in order a record [5 <layer id> <a id> <b id>] per Line, then
    per Face a record tagged [42] when it has exactly three stored points
    and [44] otherwise, with the layer id and the ids of its points in
    stored order; stated for faces with at least one point, which is what
    [parse_3DFACE] produces. *)
Theorem section1_records (layers : list Layer) :
  Forall (fun layer => Forall (fun f => face_points f <> []) (faces layer)) layers ->
  Exporter.write_through_section1 layers
  = (Exporter.header ++ Exporter.spec_section1 layers)%list.
Proof.
  intro H. unfold Exporter.write_through_section1. now apply entities_loop_spec.
Qed.

Lemma section1_records_witness :
  let tri := mkLayer "Slab H30" 3 "3DFACE" [AFloatDiv100 30] []
               [mkThreeDFace [Samples.p1; Samples.p2; Samples.p3]] [] [] in
  Exporter.write_through_section1 [Samples.line_layer; Samples.face_layer; tri]
  = (Exporter.header ++ Exporter.spec_section1 [Samples.line_layer; Samples.face_layer; tri])%list
  /\ Exporter.spec_section1 [Samples.line_layer; Samples.face_layer; tri]
     = ["5 1 1 2/" ++ Py.nl; "44 2 1 2 4 3/" ++ Py.nl; "42 3 1 2 3/" ++ Py.nl].
Proof.
  intro tri. split.
  - apply section1_records.
    repeat constructor; discriminate.
  - vm_compute. reflexivity.
Defined.

(** C9: [read_code_value(f, code)] scans for the first readline result
    equal to [code + "\n"] and returns the following readline result
    stripped of surrounding whitespace ([""] when the code line is the last
    line); when no line equals the code line it consumes the whole stream
    and returns ["ENDOFFILE"]. It never raises. *)
Theorem read_code_value_spec (code : string) :
  (forall s pre v post,
     Forall (fun l => l <> code ++ Py.nl) pre ->
     stream s = (pre ++ String.append code Py.nl :: v :: post)%list ->
     read_code_value code s = Ok (Py.strip v, set_stream s post))
  /\ (forall s pre,
     Forall (fun l => l <> code ++ Py.nl) pre ->
     stream s = (pre ++ [String.append code Py.nl])%list ->
     read_code_value code s = Ok (Py.strip "", set_stream s []))
  /\ (forall s,
     Forall (fun l => l <> code ++ Py.nl) (stream s) ->
     read_code_value code s = Ok ("ENDOFFILE", set_stream s []))
  /\ (forall s, exists v s', read_code_value code s = Ok (v, s')).
Proof.
  split; [|split; [|split]].
  - intros s pre v post Hp Hs. unfold read_code_value. rewrite Hs.
    rewrite read_code_value_go_skip by exact Hp.
    cbn [read_code_value_go]. now rewrite String.eqb_refl.
  - intros s pre Hp Hs. unfold read_code_value. rewrite Hs.
    rewrite read_code_value_go_skip by exact Hp.
    cbn [read_code_value_go]. now rewrite String.eqb_refl.
  - intros s Hp. unfold read_code_value.
    rewrite <- (app_nil_r (stream s)).
    rewrite read_code_value_go_skip by exact Hp. reflexivity.
  - intro s. unfold read_code_value.
    destruct (read_code_value_go (code ++ Py.nl) (stream s)) as [v r].
    eexists; eexists; reflexivity.
Qed.

Lemma read_code_value_spec_witness :
  read_code_value "  0" (initial_state (Samples.lines_of ["  8"; "0"; "  0"; " LINE "; " 10"]))
  = Ok ("LINE", initial_state (Samples.lines_of [" 10"]))
  /\ read_code_value "  0" (initial_state (Samples.lines_of ["  8"; "0"; "  0"]))
     = Ok ("", initial_state [])
  /\ read_code_value "  2" (initial_state (Samples.lines_of ["  8"; "Beam"]))
     = Ok ("ENDOFFILE", initial_state []).
Proof.
  destruct (read_code_value_spec "  0") as [H1 [H2 _]].
  destruct (read_code_value_spec "  2") as [_ [_ [H3 _]]].
  split; [|split].
  - refine (eq_trans (H1 (initial_state (Samples.lines_of ["  8"; "0"; "  0"; " LINE "; " 10"]))
                         (Samples.lines_of ["  8"; "0"]) (" LINE " ++ Py.nl)
                         (Samples.lines_of [" 10"]) _ eq_refl) _).
    + repeat constructor; discriminate.
    + vm_compute. reflexivity.
  - refine (eq_trans (H2 (initial_state (Samples.lines_of ["  8"; "0"; "  0"]))
                         (Samples.lines_of ["  8"; "0"]) _ eq_refl) _).
    + repeat constructor; discriminate.
    + vm_compute. reflexivity.
  - refine (eq_trans (H3 _ _) _).
    + repeat constructor; discriminate.
    + vm_compute. reflexivity.
Defined.

(* ================================================================== *)
(** * Further properties of the code *)

(** X1: [strip_tollerence] is idempotent: truncating an already truncated
    coordinate string changes nothing, so a [POINTS] key is a fixed point. *)
Theorem strip_tollerence_idempotent (num : string) :
  strip_tollerence (strip_tollerence num) = strip_tollerence num.
Proof.
  rewrite (strip_tollerence_eq num).
  destruct (Py.split num ".") as [|f0 [|f1 [|f2 r]]] eqn:E;
    try (rewrite strip_tollerence_eq, E; reflexivity).
  pose proof (split_go_pieces "." num EmptyString eq_refl) as HF.
  unfold Py.split in E. rewrite E in HF.
  inversion HF as [|? ? H0 HF1]; subst. inversion HF1 as [|? ? H1 _]; subst.
  rewrite strip_tollerence_dot by (auto using no_char_substring0).
  now rewrite substring0_idem.
Qed.

(** X2: [unique_points] keeps, in input order, the points with no earlier
    point of the same id ([first_occurrences]): so its ids are distinct,
    it only keeps input points, every input id survives, and a list whose
    ids are already distinct is returned unchanged. *)
Theorem unique_points_spec (pts : list Point) :
  unique_points pts = first_occurrences pts
  /\ NoDup (map id (unique_points pts))
  /\ (forall p, In p (unique_points pts) -> In p pts)
  /\ (forall p, In p pts -> exists q, In q (unique_points pts) /\ id q = id p)
  /\ (NoDup (map id pts) -> unique_points pts = pts).
Proof.
  split; [apply unique_points_first_occurrences|].
  destruct (unique_points_go_spec pts [] [] (fun i => iff_refl _) (NoDup_nil _))
    as (H1 & H2 & H3 & _).
  unfold unique_points. split; [exact H1|]. split.
  - intros p Hp. destruct (H2 p Hp) as [[]|]; assumption.
  - split.
    + intros p Hp. apply H3, in_map_iff in Hp as (q & Hq & Hin). now exists q.
    + intro Hnd. apply unique_points_go_distinct; [exact Hnd | intros ? _ []].
Qed.

(** X3: the entity parsers ([parse_POINT], [parse_LINE], [parse_3DFACE],
    [parse_LWPOLYLINE]) only append to [POINTS], and keep its numbering:
    distinct keys, each the truncation of its point, ids 1..n in insertion
    order, with the point counter at n. *)
Theorem entity_parser_points (t : string) (parser : M entity) (s s' : St) (e : entity) :
  ENTITY_PARSERS t = Some parser -> parser s = Ok (e, s') ->
  (exists new, POINTS s' = (POINTS s ++ new)%list) /\ (points_numbered s -> points_numbered s').
Proof.
  intros Ht H. split.
  - apply (pres_entity_parser (fun st => exists new, POINTS st = (POINTS s ++ new)%list))
      with (t := t) (parser := parser) (s := s) (v := e); auto.
    + intros st l Hst. exact Hst.
    + apply points_extend_point_factory.
    + exists []. now rewrite app_nil_r.
  - intro Hs. apply (pres_entity_parser points_numbered) with (t := t) (parser := parser) (s := s) (v := e); auto.
    + intros st l Hst. exact Hst.
    + apply points_numbered_point_factory.
Qed.

Lemma entity_parser_points_witness :
  points_numbered (initial_state (Samples.lines_of Samples.line_codes))
  /\ match (l <- parse_LINE;; ret (ELine l)) (initial_state (Samples.lines_of Samples.line_codes)) with
     | Ok (_, s') => ((exists new, POINTS s' = (POINTS (initial_state (Samples.lines_of Samples.line_codes)) ++ new)%list)
                      /\ (points_numbered (initial_state (Samples.lines_of Samples.line_codes)) -> points_numbered s'))
                     /\ length (POINTS s') = 2%nat
     | Err _ => False
     end.
Proof.
  assert (H0 : points_numbered (initial_state (Samples.lines_of Samples.line_codes))).
  { unfold points_numbered. cbn. split; [constructor|]. split; [constructor|]. split; reflexivity. }
  split; [exact H0|].
  destruct ((l <- parse_LINE;; ret (ELine l)) (initial_state (Samples.lines_of Samples.line_codes)))
    as [[e s']|err] eqn:E.
  - split.
    + apply (entity_parser_points "LINE" (l <- parse_LINE;; ret (ELine l)) _ _ e); [reflexivity | exact E].
    + vm_compute in E. injection E as _ <-. reflexivity.
  - vm_compute in E. discriminate.
Defined.

(** X7: the layers returned by [parse_entities] have distinct names. *)
Theorem parse_entities_distinct_names (s s' : St) (layers : list Layer) :
  parse_entities s = Ok (layers, s') -> NoDup (map name layers).
Proof. intro H. exact (proj1 (parse_entities_inv _ _ _ H)). Qed.

Lemma parse_entities_distinct_names_witness :
  match parse_entities (initial_state Samples.mixed) with
  | Ok (layers, _) => map name layers = ["Beam B30 H50"; "Slab H20"; "Sup DOF x z"]
                      /\ NoDup (map name layers)
  | Err _ => False
  end.
Proof.
  destruct (parse_entities (initial_state Samples.mixed)) as [[layers s']|err] eqn:E.
  - split; [vm_compute in E; injection E as <- _; reflexivity|].
    exact (parse_entities_distinct_names _ _ _ E).
  - vm_compute in E. discriminate.
Defined.

(** X8: every layer returned by [parse_entities] holds entities of its own
    type only (LINE, 3DFACE or POINT), at least one, and carries the
    attributes of that type: [B] and [H] for a LINE, [H / 100] for a
    3DFACE, a nonempty list of known DOF tokens for a POINT. *)
Theorem parse_entities_layers_ok (s s' : St) (layers : list Layer) :
  parse_entities s = Ok (layers, s') -> Forall layer_ok layers.
Proof. intro H. exact (proj1 (proj2 (parse_entities_inv _ _ _ H))). Qed.

Lemma parse_entities_layers_ok_witness :
  match parse_entities (initial_state Samples.mixed) with
  | Ok (layers, _) => map type layers = ["LINE"; "3DFACE"; "POINT"] /\ Forall layer_ok layers
  | Err _ => False
  end.
Proof.
  destruct (parse_entities (initial_state Samples.mixed)) as [[layers s']|err] eqn:E.
  - split; [vm_compute in E; injection E as <- _; reflexivity|].
    exact (parse_entities_layers_ok _ _ _ E).
  - vm_compute in E. discriminate.
Defined.

(** X9: the ids of the layers returned by [parse_entities] strictly
    increase in result order and none exceeds the final layer counter. *)
Theorem parse_entities_layer_ids (s s' : St) (layers : list Layer) :
  parse_entities s = Ok (layers, s') ->
  StronglySorted Z.lt (map lid layers)
  /\ Forall (fun L => match seq_layers s' with None => False | Some n => (lid L <= n)%Z end) layers.
Proof. intro H. exact (proj2 (proj2 (parse_entities_inv _ _ _ H))). Qed.

Lemma parse_entities_layer_ids_witness :
  match parse_entities (initial_state Samples.mixed) with
  | Ok (layers, s') => map lid layers = [1%Z; 2%Z; 3%Z] /\ seq_layers s' = Some 3%Z
      /\ StronglySorted Z.lt (map lid layers)
      /\ Forall (fun L => match seq_layers s' with None => False | Some n => (lid L <= n)%Z end) layers
  | Err _ => False
  end.
Proof.
  destruct (parse_entities (initial_state Samples.mixed)) as [[layers s']|err] eqn:E.
  - split; [|split]; [vm_compute in E; injection E as <- <-; reflexivity..|].
    exact (parse_entities_layer_ids _ _ _ E).
  - vm_compute in E. discriminate.
Defined.

(** X10: for a 3DFACE, [parse_layer_name] returns [[H / 100]] (the number
    after the first [H<digits>] match) when the name contains an [H]
    followed by a digit, and the empty (invalid) list otherwise. *)
Theorem parse_layer_name_3dface_attrs (layer_name : string) :
  parse_layer_name "3DFACE" layer_name
  = if has_letter_digit "H" layer_name
    then Some [AFloatDiv100 (first_match_value "H" layer_name)]
    else Some [].
Proof.
  unfold parse_layer_name, first_match_value. cbn [String.eqb Ascii.eqb Bool.eqb].
  destruct (findall "H" layer_name) as [|hv hs] eqn:EH.
  - apply findall_nil in EH. rewrite EH. reflexivity.
  - assert (HH : has_letter_digit "H" layer_name = true).
    { destruct (has_letter_digit "H" layer_name) eqn:E; [reflexivity|].
      apply findall_nil in E. congruence. }
    rewrite HH. reflexivity.
Qed.

Section LiraExport.

Variable fs : Z -> string.
Variable fd : Z -> string.

(** X11: on well-formed layers, the LAYERS section of the LIRA file has one
    record per non-POINT layer, in order: the 3DFACE record
    [<id> 3.06E6 0.2 <attrs>] for a 3DFACE layer, the LINE record
    [<id> S0 3.06E6 <attrs>] for the others. *)
Theorem layers_section_records (layers : list Layer) (acc : list string) :
  Forall layer_ok layers ->
  Exporter.layers_loop fs fd layers acc =
  (acc ++ map (fun L =>
     let at' := String.concat " " (map (Exporter.str_attr fs fd) (attrs L)) in
     if String.eqb (type L) "3DFACE"
     then (Py.str_int (lid L) ++ " 3.06E6 0.2 " ++ at' ++ "/" ++ Py.nl)%string
     else (Py.str_int (lid L) ++ " S0 3.06E6 " ++ at' ++ "/" ++ Py.nl)%string)
    (filter (fun L => negb (String.eqb (type L) "POINT")) layers))%list.
Proof. apply layers_loop_ok. Qed.

(** X12: [_write_to_lira_file] raises [KeyError] exactly when some layer
    with points has an attribute that is not a key of [DOF_MAP]. *)
Theorem write_to_lira_file_key_error (layers : list Layer) (pts : list Point) :
  Exporter.write_to_lira_file fs fd layers pts = None <->
  Exists (fun L => points L <> [] /\ Exists (fun d => Exporter.DOF_MAP_get d = None) (attrs L)) layers.
Proof.
  rewrite write_to_lira_file_none. split; apply Exists_impl; intros L [H1 H2];
    (split; [exact H1 | apply dofs_codes_none; exact H2]).
Qed.

(** X14: when [parse_dxf] succeeds, the LIRA file written is named after
    the part of the file name before its dot with [__lira.txt] appended,
    its export raises no [KeyError], and the layers returned have distinct
    names and are well formed. *)
Theorem parse_dxf_result (filename : string) (s s' : St) (layers : list Layer)
    (fname : string) (out : option (list string)) :
  parse_dxf fs fd filename s = Ok ((layers, (fname, out)), s') ->
  (exists base ext, Py.split filename "." = [base; ext] /\ fname = (base ++ "__lira.txt")%string)
  /\ out <> None /\ NoDup (map name layers) /\ Forall layer_ok layers.
Proof.
  unfold parse_dxf.
  destruct (Py.split filename ".") as [|b [|e [|f r]]] eqn:Es; try discriminate.
  unfold bind. destruct (parse_dxf_loop _ [] s) as [[Ls s1]|err] eqn:E; [|discriminate].
  intro H. inversion H; subst; clear H.
  destruct (parse_dxf_loop_inv _ _ _ _ _ E (conj (NoDup_nil _) (Forall_nil _))) as [Hn Hf].
  split; [exists b, e; split; reflexivity|]. split; [|split; assumption].
  exact (write_to_lira_file_layers_ok fs fd _ _ Hf).
Qed.

End LiraExport.

(** X15: on well-formed layers, the DOFS section of the LIRA file has, for
    each POINT layer in order, one record [<point id> <DOF codes>] per
    point of the layer, the codes being [DOF_MAP] of its attributes. *)
Theorem dofs_section_records (layers : list Layer) (out : list string) :
  Forall layer_ok layers ->
  Exporter.dofs_loop layers out =
  Some (out ++ concat (map (fun L =>
          map (fun p => Py.str_int (id p) ++ " "
                 ++ String.concat " " (map (fun d => match Exporter.DOF_MAP_get d with
                                                    | Some c => Py.str_int c
                                                    | None => EmptyString end) (attrs L))
                 ++ "/" ++ Py.nl)%string (points L))
        (filter (fun L => String.eqb (type L) "POINT") layers)))%list.
Proof. apply dofs_loop_ok. Qed.

Lemma layers_section_records_witness :
  Forall layer_ok [Samples.line_layer; Samples.face_layer; Samples.point_layer]
  /\ Exporter.layers_loop Py.str_int Py.str_int [Samples.line_layer; Samples.face_layer; Samples.point_layer] []
     = [String.append "1 S0 3.06E6 30 50/" Py.nl; String.append "2 3.06E6 0.2 20/" Py.nl].
Proof.
  assert (HF : Forall layer_ok [Samples.line_layer; Samples.face_layer; Samples.point_layer])
    by (repeat (apply Forall_cons; [solve_layer_ok|]); apply Forall_nil).
  split; [exact HF|].
  refine (eq_trans (layers_section_records Py.str_int Py.str_int _ [] HF) _).
  vm_compute. reflexivity.
Defined.

Lemma dofs_section_records_witness :
  Forall layer_ok [Samples.line_layer; Samples.face_layer; Samples.point_layer]
  /\ Exporter.dofs_loop [Samples.line_layer; Samples.face_layer; Samples.point_layer] []
     = Some [String.append "3 1 3/" Py.nl].
Proof.
  assert (HF : Forall layer_ok [Samples.line_layer; Samples.face_layer; Samples.point_layer])
    by (repeat (apply Forall_cons; [solve_layer_ok|]); apply Forall_nil).
  split; [exact HF|].
  refine (eq_trans (dofs_section_records _ [] HF) _).
  vm_compute. reflexivity.
Defined.

Lemma parse_dxf_result_witness :
  match parse_dxf Py.str_int Py.str_int "model.dxf"
          (initial_state (Samples.lines_of ["  2"; "ENTITIES"] ++ Samples.mixed)) with
  | Ok ((layers, (fname, out)), _) =>
      length layers = 3%nat
      /\ ((exists base ext, Py.split "model.dxf" "." = [base; ext] /\ fname = (base ++ "__lira.txt")%string)
          /\ out <> None /\ NoDup (map name layers) /\ Forall layer_ok layers)
  | Err _ => False
  end.
Proof.
  destruct (parse_dxf Py.str_int Py.str_int "model.dxf"
              (initial_state (Samples.lines_of ["  2"; "ENTITIES"] ++ Samples.mixed)))
    as [[[layers [fname out]] s']|err] eqn:E.
  - split; [vm_compute in E; injection E as <- _ _ _; reflexivity|].
    exact (parse_dxf_result _ _ _ _ _ _ _ _ E).
  - vm_compute in E. discriminate.
Defined.
